(** * loggly_eb: rsyslog forwarding configuration for Loggly

    A shallow embedding of [AWSscripts/loggly_eb.py] and the properties of
    its renderer, file writer, remover, service controller and option
    resolver.

    Modelling conventions.
    - Text is a [string] of 8-bit characters.  [six.b] is the identity on
      such text (under Python 2 [str] already is [bytes]; under Python 3
      it is the latin-1 encoding, which maps each character below 256 to
      the byte of the same value).
    - The machine is a [world]: the regular files (path to content), the
      chronological list of observable events, and the exit codes that
      the commands spawned from now on will return.  Directories and
      permissions are not part of it: a path either holds a regular file
      or nothing, and every path can be written.
    - A computation either returns, leaves through [sys.exit] or raises;
      nothing in the script catches either of the last two. *)

From Stdlib Require Import ZArith Ascii String List Bool Lia.
From stdpp Require Import base option gmap strings pretty.
Import ListNotations.

Local Open Scope string_scope.
Local Open Scope Z_scope.

(** ** Characters and text helpers *)

Definition LF : string := String "010"%char EmptyString.
Definition DQ : string := String "034"%char EmptyString.
Definition BS : string := String "092"%char EmptyString.

(** [s[1:]] *)
Definition drop_first (s : string) : string :=
  match s with
  | EmptyString => EmptyString
  | String _ r => r
  end.

(** [sep.join(l)] *)
Definition join (sep : string) (l : list string) : string := String.concat sep l.

(** [msg.startswith(p)] *)
Definition startswith (p msg : string) : bool := String.prefix p msg.

(** [%r] of a string that holds no quote, no backslash and only printable
    ASCII, which is the case of the two paths the script formats. *)
Definition repr (s : string) : string := "'" ++ s ++ "'".

(** ** Outcomes *)

Inductive exn : Type :=
| KeyError (key : string)
| TypeError
| ValueError
| FileNotFoundError (path : string)
| OSError.

Inductive outcome (A : Type) : Type :=
| Ok (a : A)
| Exit (status : Z)
| Raise (e : exn).
Arguments Ok {A} a.
Arguments Exit {A} status.
Arguments Raise {A} e.

Definition omap {A B} (f : A -> B) (o : outcome A) : outcome B :=
  match o with
  | Ok a => Ok (f a)
  | Exit c => Exit c
  | Raise e => Raise e
  end.

(** ** The [%] operator with a mapping on the right

    Values that reach the formatter. *)
Inductive fval : Type :=
| VNone
| VStr (s : string)
| VInt (z : Z).

(** [str(v)] *)
Definition py_str (v : fval) : string :=
  match v with
  | VNone => "None"
  | VStr s => s
  | VInt z => pretty z
  end.

Definition of_opt (o : option string) : fval :=
  match o with
  | Some s => VStr s
  | None => VNone
  end.

(** Position of the scanner inside a conversion specifier. *)
Inductive fstate : Type :=
| Lit                      (* outside a specifier *)
| Pct                      (* just after [%] *)
| Key (k : string)         (* inside [%(...], [k] read so far *)
| Conv (k : string).       (* after [%(k)], the conversion type is next *)

Definition snoc (k : string) (c : ascii) : string := k ++ String c EmptyString.

(** One left-to-right pass, as [str.__mod__] does it.  The directives are
    the ones of the template: [%%], [%(key)s] and [%(key)d], with a key
    that holds no parenthesis; a missing key is a [KeyError], [%d] of a
    non-number a [TypeError], anything else a [ValueError]. *)
Fixpoint format_from (st : fstate) (args : gmap string fval) (t : string)
  : outcome string :=
  match t with
  | EmptyString =>
      match st with
      | Lit => Ok EmptyString
      | _ => Raise ValueError
      end
  | String c t' =>
      match st with
      | Lit =>
          if Ascii.eqb c "%" then format_from Pct args t'
          else omap (String c) (format_from Lit args t')
      | Pct =>
          if Ascii.eqb c "%" then omap (String "%") (format_from Lit args t')
          else if Ascii.eqb c "(" then format_from (Key EmptyString) args t'
          else Raise ValueError
      | Key k =>
          if Ascii.eqb c ")" then format_from (Conv k) args t'
          else format_from (Key (snoc k c)) args t'
      | Conv k =>
          match args !! k with
          | None => Raise (KeyError k)
          | Some v =>
              if Ascii.eqb c "s" then
                omap (String.append (py_str v)) (format_from Lit args t')
              else if Ascii.eqb c "d" then
                match v with
                | VInt z => omap (String.append (pretty z)) (format_from Lit args t')
                | _ => Raise TypeError
                end
              else Raise ValueError
          end
      end
  end.

(** [t % args] *)
Definition percent (t : string) (args : gmap string fval) : outcome string :=
  format_from Lit args t.

(** ** [textwrap.dedent] *)

Definition is_blank (c : ascii) : bool :=
  Ascii.eqb c " " || Ascii.eqb c "009".

(** The lines of a text: the pieces between line feeds. *)
Fixpoint split_lines (s : string) : list string :=
  match s with
  | EmptyString => [EmptyString]
  | String c r =>
      if Ascii.eqb c "010" then EmptyString :: split_lines r
      else match split_lines r with
           | l :: ls => String c l :: ls
           | [] => [String c EmptyString]
           end
  end.

Fixpoint whitespace_only (l : string) : bool :=
  match l with
  | EmptyString => true
  | String c r => is_blank c && whitespace_only r
  end.

Fixpoint leading_whitespace (l : string) : string :=
  match l with
  | EmptyString => EmptyString
  | String c r => if is_blank c then String c (leading_whitespace r) else EmptyString
  end.

Fixpoint common_prefix (a b : string) : string :=
  match a, b with
  | String x a', String y b' =>
      if Ascii.eqb x y then String x (common_prefix a' b') else EmptyString
  | _, _ => EmptyString
  end.

(** The margin: the longest run of blanks that starts every line that has
    a visible character.  (Older versions of the library give up on the
    margin when two indentations differ at some position; indentations
    made of spaces only never do.) *)
Definition margin_of (indents : list string) : string :=
  match indents with
  | [] => EmptyString
  | i :: rest => fold_left common_prefix rest i
  end.

Fixpoint strip_prefix (p l : string) : string :=
  match p, l with
  | EmptyString, _ => l
  | String x p', String y l' => if Ascii.eqb x y then strip_prefix p' l' else l
  | _, EmptyString => l
  end.

Definition remove_margin (m l : string) : string :=
  if String.prefix m l then strip_prefix m l else l.

Definition dedent (text : string) : string :=
  let lines := map (fun l => if whitespace_only l then EmptyString else l)
                   (split_lines text) in
  let indents := map leading_whitespace
                     (filter (fun l => negb (whitespace_only l)) lines) in
  let margin := margin_of indents in
  join LF (map (remove_margin margin) lines).

(** ** Constants of the script *)

Definition LOGGLY_DISTRIBUTION_ID : string := "41058".
Definition LOGS_01_HOST : string := "logs-01.loggly.com".
Definition LOGGLY_SYSLOG_PORT : Z := 514.

Definition RSYSLOG_ETCDIR_CONF : string := "/etc/rsyslog.d".
Definition LOGGLY_RSYSLOG_CONFFILE : string := RSYSLOG_ETCDIR_CONF ++ "/22-loggly.conf".
Definition LOGGLY_RSYSLOG_CONFFILE_BACKUP : string := LOGGLY_RSYSLOG_CONFFILE ++ ".loggly.bk".
Definition RSYSLOG_SERVICE : string := "rsyslog".

(** ** The renderer *)

(** The raw template literal of [get_loggly_conf], line by line: it opens
    with a line feed and closes with the indentation of the closing
    quotes.  A backslash is an ordinary character in it. *)
Definition template : string :=
  join LF
    [ "";
      "        #          -------------------------------------------------------";
      "        #          Syslog Logging Directives for Loggly (%(account)s.loggly.com)";
      "        #          -------------------------------------------------------";
      "        # Define the template used for sending logs to Loggly. Do not change this format.";
      "        $template LogglyFormat," ++ DQ ++ "<%%pri%%>%%protocol-version%% %%timestamp:::date-rfc3339%% %(hostname)s %%app-name%% %%procid%% %%msgid%% [%(token)s@%(distribution_id)s %(tags)s] %%msg%%\n" ++ DQ;
      "";
      "        $WorkDirectory /var/spool/rsyslog # where to place spool files";
      "        $ActionQueueFileName fwdRule1 # unique name prefix for spool files";
      "        $ActionQueueMaxDiskSpace 1g   # 1gb space limit (use as much as possible)";
      "        $ActionQueueSaveOnShutdown on # save messages to disk on shutdown";
      "        $ActionQueueType LinkedList   # run asynchronously";
      "        $ActionResumeRetryCount -1    # infinite retries if host is down";
      "";
      "        # Send messages to Loggly over TCP using the template.";
      "        *.*             @@%(logs_host)s:%(logs_port)d;LogglyFormat";
      "        #     -------------------------------------------------------";
      "        " ].

(** The [config] dictionary that [main] builds. *)
Record Configuration : Type := {
  account : option string;
  token : option string;
  tags : option (list string);
  hostname : option string
}.

(** Truth value of an optional string: [None] and [''] are false. *)
Definition truthy (o : option string) : bool :=
  match o with
  | Some s => negb (String.eqb s "")
  | None => false
  end.

(** Truth value of an optional list: [None] and [[]] are false. *)
Definition truthy_list {A} (o : option (list A)) : bool :=
  match o with
  | Some (_ :: _) => true
  | _ => false
  end.

(** The raw literal [tag=\Q%s\Q], where Q is the double quote, applied
    to [tag]. *)
Definition tag_entry (tag : string) : string :=
  "tag=" ++ BS ++ DQ ++ tag ++ BS ++ DQ.

(** The list [tags] of [get_loggly_conf] once it is complete. *)
Definition all_tags (config : Configuration) : list string :=
  if truthy_list (tags config)
  then ["Rsyslog"] ++ default [] (tags config)
  else ["Rsyslog"].

(** [get_loggly_conf(config)].  The dictionary [args] starts as a copy of
    [config]; its ['tags'] entry, a list or [None] there, is replaced by
    the joined text before anything reads it, so the copy carries the
    three other entries. *)
Definition get_loggly_conf (config : Configuration) : outcome string :=
  let args : gmap string fval :=
    <["hostname" := of_opt (hostname config)]>
      (<["token" := of_opt (token config)]>
         {["account" := of_opt (account config)]}) in
  let args :=
    if negb (truthy (hostname config))
    then <["hostname" := VStr "%HOSTNAME%"]> args
    else args in
  let tags := all_tags config in
  let args := <["tags" := VStr (join " " (map tag_entry tags))]> args in
  let args := <["distribution_id" := VStr LOGGLY_DISTRIBUTION_ID]> args in
  let args := <["logs_host" := VStr LOGS_01_HOST]> args in
  let args := <["logs_port" := VInt LOGGLY_SYSLOG_PORT]> args in
  percent (dedent (drop_first template)) args.

(** ** The machine *)

Inductive event : Type :=
| EPrint (msg : string)           (* [print(msg)] *)
| EUsage                          (* [parser.print_usage()] *)
| EExists (path : string)         (* [os.path.exists(path)] *)
| ERead (path : string)           (* [open(path, 'rb')] and [read()] *)
| EMove (src dst : string)        (* [shutil.move(src, dst)] *)
| EWrite (path data : string)     (* [open(path, 'wb')] and [write(data)] *)
| EUnlink (path : string)         (* [os.unlink(path)] *)
| ECall (argv : list string).     (* [subprocess.call(argv)] *)

(** Events that change the files. *)
Definition modifies_files (e : event) : bool :=
  match e with
  | EMove _ _ | EWrite _ _ | EUnlink _ => true
  | _ => false
  end.

(** Events that touch the files at all. *)
Definition file_io (e : event) : bool :=
  match e with
  | EExists _ | ERead _ | EMove _ _ | EWrite _ _ | EUnlink _ => true
  | _ => false
  end.

Record world : Type := World {
  fs : gmap string string;      (* regular files: path to content *)
  trace : list event;           (* what happened so far, oldest first *)
  spawns : list Z               (* exit codes of the commands still to be spawned;
                                   when none is left the command cannot be started *)
}.

Definition emit (e : event) (w : world) : world :=
  World (fs w) (trace w ++ [e]) (spawns w).

Definition set_fs (f : gmap string string) (w : world) : world :=
  World f (trace w) (spawns w).

Definition prog (A : Type) : Type := world -> outcome A * world.

Definition ret {A} (a : A) : prog A := fun w => (Ok a, w).

Definition bind {A B} (m : prog A) (k : A -> prog B) : prog B :=
  fun w =>
    match m w with
    | (Ok a, w') => k a w'
    | (Exit c, w') => (Exit c, w')
    | (Raise e, w') => (Raise e, w')
    end.

Definition lift {A} (o : outcome A) : prog A := fun w => (o, w).

Declare Scope prog_scope.
Delimit Scope prog_scope with prog.
Notation "x <- m ;; k" := (bind m (fun x => k))
  (at level 100, m at next level, right associativity) : prog_scope.
Notation "m ;; k" := (bind m (fun _ => k))
  (at level 100, right associativity) : prog_scope.
Local Open Scope prog_scope.

(** *** Primitive operations *)

Definition print (msg : string) : prog unit :=
  fun w => (Ok tt, emit (EPrint msg) w).

Definition print_usage : prog unit :=
  fun w => (Ok tt, emit EUsage w).

Definition sys_exit {A} (status : Z) : prog A :=
  fun w => (Exit status, w).

Definition os_path_exists (path : string) : prog bool :=
  fun w => (Ok (bool_decide (is_Some (fs w !! path))), emit (EExists path) w).

Definition read_file (path : string) : prog string :=
  fun w =>
    let w' := emit (ERead path) w in
    match fs w !! path with
    | Some data => (Ok data, w')
    | None => (Raise (FileNotFoundError path), w')
    end.

(** A regular file moved onto a regular file replaces it. *)
Definition shutil_move (src dst : string) : prog unit :=
  fun w =>
    let w' := emit (EMove src dst) w in
    match fs w !! src with
    | Some data => (Ok tt, set_fs (<[dst := data]> (delete src (fs w))) w')
    | None => (Raise (FileNotFoundError src), w')
    end.

Definition write_file (path data : string) : prog unit :=
  fun w => (Ok tt, set_fs (<[path := data]> (fs w)) (emit (EWrite path data) w)).

Definition os_unlink (path : string) : prog unit :=
  fun w =>
    let w' := emit (EUnlink path) w in
    match fs w !! path with
    | Some _ => (Ok tt, set_fs (delete path (fs w)) w')
    | None => (Raise (FileNotFoundError path), w')
    end.

Definition subprocess_call (argv : list string) : prog Z :=
  fun w =>
    match spawns w with
    | code :: rest => (Ok code, World (fs w) (trace w ++ [ECall argv]) rest)
    | [] => (Raise OSError, emit (ECall argv) w)
    end.

(** [six.b] *)
Definition six_b (s : string) : string := s.

(** *** The functions of the script *)

Definition log (msg : string) : prog unit :=
  print msg ;;
  if startswith "ERROR" msg then sys_exit 1 else ret tt.

Definition restart_rsyslog : prog unit :=
  log ("INFO: Restarting the " ++ RSYSLOG_SERVICE ++ " service.") ;;
  code <- subprocess_call ["service"; RSYSLOG_SERVICE; "restart"] ;;
  if negb (code =? 0) then
    log ("WARNING: " ++ RSYSLOG_SERVICE ++ " did not restart gracefully. Please restart "
         ++ RSYSLOG_SERVICE ++ " manually.")
  else ret tt.

Definition write_rsyslog_conf (config : Configuration) : prog unit :=
  contents <- lift (get_loggly_conf config) ;;
  present <- os_path_exists LOGGLY_RSYSLOG_CONFFILE ;;
  write_script <-
    (if (present : bool) then
       log ("INFO: Loggly rsyslog file " ++ repr LOGGLY_RSYSLOG_CONFFILE ++ " already exist.") ;;
       old_contents <- read_file LOGGLY_RSYSLOG_CONFFILE ;;
       if negb (String.eqb (six_b contents) old_contents) then
         log ("WARN: Loggly rsyslog file " ++ repr LOGGLY_RSYSLOG_CONFFILE
              ++ " content has changed.") ;;
         log ("INFO: Going to back up the conf file: " ++ repr LOGGLY_RSYSLOG_CONFFILE
              ++ " to " ++ repr LOGGLY_RSYSLOG_CONFFILE_BACKUP) ;;
         shutil_move LOGGLY_RSYSLOG_CONFFILE LOGGLY_RSYSLOG_CONFFILE_BACKUP ;;
         ret true
       else ret false
     else ret true) ;;
  (if (write_script : bool)
   then write_file LOGGLY_RSYSLOG_CONFFILE (six_b contents)
   else ret tt) ;;
  log ("INFO: Loggly rsyslog file " ++ repr LOGGLY_RSYSLOG_CONFFILE ++ " written.").

Definition configure (config : Configuration) : prog unit :=
  log "INFO: Initiating Configure Loggly for Linux." ;;
  write_rsyslog_conf config ;;
  restart_rsyslog ;;
  log "SUCCESS: Linux system successfully configured to send logs via Loggly.".

Definition remove_loggly_conf : prog unit :=
  present <- os_path_exists LOGGLY_RSYSLOG_CONFFILE ;;
  if (present : bool) then os_unlink LOGGLY_RSYSLOG_CONFFILE else ret tt.

Definition unconfigure : prog unit :=
  log "INFO: Initiating uninstall Loggly for Linux." ;;
  remove_loggly_conf ;;
  restart_rsyslog ;;
  log "SUCCESS: Uninstalled Loggly configuration from Linux system.".

(** *** Command line and environment *)

(** What a command line that [argparse] accepts gives: [None] for an
    option that is not on it, [Some []] for [--tags] followed by no
    value.  ([parser.parse_args()] itself leaves with status 2 on a
    command line it rejects and with status 0 on [-h]; such command
    lines have no record.) *)
Record cli : Type := {
  cli_account : option string;
  cli_token : option string;
  cli_tags : option (list string);
  cli_hostname : option string;
  cli_remove : bool
}.

(** The namespace that [parser.parse_args()] returns. *)
Record Namespace : Type := {
  ns_account : option string;
  ns_token : option string;
  ns_tags : option (list string);
  ns_hostname : option string;
  ns_remove : bool
}.

(** An option given on the command line wins over its default. *)
Definition with_default (given fallback : option string) : option string :=
  match given with
  | Some v => Some v
  | None => fallback
  end.

Definition parse_args (argv : cli) (environ : gmap string string) : Namespace :=
  {| ns_account := with_default (cli_account argv) (environ !! "LOGGLY_ACCOUNT");
     ns_token := with_default (cli_token argv) (environ !! "LOGGLY_TOKEN");
     ns_tags := cli_tags argv;
     ns_hostname := with_default (cli_hostname argv) (environ !! "LOGGLY_HOSTNAME");
     ns_remove := cli_remove argv |}.

Section Main.

(** [shlex.split], which may raise on unbalanced quotes. *)
Variable shlex_split : string -> outcome (list string).

Definition main (argv : cli) (environ : gmap string string) : prog unit :=
  let args := parse_args argv environ in
  if ns_remove args then unconfigure
  else if negb (truthy (ns_account args)) || negb (truthy (ns_token args)) then
    print_usage ;;
    sys_exit 1
  else
    tags <-
      (match ns_tags args with
       | Some l => ret (Some l)
       | None =>
           if truthy (environ !! "LOGGLY_TAGS") then
             l <- lift (shlex_split (default "" (environ !! "LOGGLY_TAGS"))) ;;
             ret (Some l)
           else ret None
       end) ;;
    configure {| account := ns_account args;
                 token := ns_token args;
                 tags := tags;
                 hostname := ns_hostname args |}.

End Main.

(** Exit status of the process for an outcome of [main]: an uncaught
    exception ends the interpreter with status 1. *)
Definition exit_status (o : outcome unit) : Z :=
  match o with
  | Ok _ => 0
  | Exit status => status
  | Raise _ => 1
  end.

(** * Properties *)

(** ** Vocabulary of the statements *)

(** Text of an optional value as [%s] shows it. *)
Definition text_of (o : option string) : string := py_str (of_opt o).

(** The host name the template receives. *)
Definition hostname_text (o : option string) : string :=
  if truthy o then default "" o else "%HOSTNAME%".

(** What precedes the tag clause in the output. *)
Definition conf_head (acc host tok : string) : string :=
  join LF
    [ "#          -------------------------------------------------------";
      "#          Syslog Logging Directives for Loggly (" ++ acc ++ ".loggly.com)";
      "#          -------------------------------------------------------";
      "# Define the template used for sending logs to Loggly. Do not change this format.";
      "$template LogglyFormat," ++ DQ ++ "<%pri%>%protocol-version% %timestamp:::date-rfc3339% "
        ++ host ++ " %app-name% %procid% %msgid% [" ++ tok ++ "@41058 " ].

(** What follows the tag clause in the output. *)
Definition conf_tail : string :=
  join LF
    [ "] %msg%\n" ++ DQ;
      "";
      "$WorkDirectory /var/spool/rsyslog # where to place spool files";
      "$ActionQueueFileName fwdRule1 # unique name prefix for spool files";
      "$ActionQueueMaxDiskSpace 1g   # 1gb space limit (use as much as possible)";
      "$ActionQueueSaveOnShutdown on # save messages to disk on shutdown";
      "$ActionQueueType LinkedList   # run asynchronously";
      "$ActionResumeRetryCount -1    # infinite retries if host is down";
      "";
      "# Send messages to Loggly over TCP using the template.";
      "*.*             @@logs-01.loggly.com:514;LogglyFormat";
      "#     -------------------------------------------------------";
      "" ].

(** The tag clause for a list of tags. *)
Definition tag_clause (l : list string) : string := join " " (map tag_entry l).

(** The two paths and the command, spelled out. *)
Definition conffile : string := "/etc/rsyslog.d/22-loggly.conf".
Definition backup : string := "/etc/rsyslog.d/22-loggly.conf.loggly.bk".
Definition restart_argv : list string := ["service"; "rsyslog"; "restart"].

(** The lines the script logs, spelled out. *)
Definition msg_initiating : string := "INFO: Initiating Configure Loggly for Linux.".
Definition msg_exist : string :=
  "INFO: Loggly rsyslog file '/etc/rsyslog.d/22-loggly.conf' already exist.".
Definition msg_changed : string :=
  "WARN: Loggly rsyslog file '/etc/rsyslog.d/22-loggly.conf' content has changed.".
Definition msg_backing_up : string :=
  "INFO: Going to back up the conf file: '/etc/rsyslog.d/22-loggly.conf' to '/etc/rsyslog.d/22-loggly.conf.loggly.bk'".
Definition msg_written : string :=
  "INFO: Loggly rsyslog file '/etc/rsyslog.d/22-loggly.conf' written.".
Definition msg_configured : string :=
  "SUCCESS: Linux system successfully configured to send logs via Loggly.".
Definition msg_uninstalling : string := "INFO: Initiating uninstall Loggly for Linux.".
Definition msg_uninstalled : string :=
  "SUCCESS: Uninstalled Loggly configuration from Linux system.".
Definition msg_restarting : string := "INFO: Restarting the rsyslog service.".
Definition msg_not_restarted : string :=
  "WARNING: rsyslog did not restart gracefully. Please restart rsyslog manually.".

(** What the restart and the closing log line of [configure] or
    [unconfigure] add to a trace, given the exit codes still to come. *)
Definition closing_events (s : list Z) (final : string) : list event :=
  [EPrint msg_restarting; ECall restart_argv]
  ++ match s with
     | [] => []
     | code :: _ => (if code =? 0 then [] else [EPrint msg_not_restarted]) ++ [EPrint final]
     end.

Definition closing_outcome (s : list Z) : outcome unit :=
  match s with
  | [] => Raise OSError
  | _ :: _ => Ok tt
  end.

(** The events of a run of [write_rsyslog_conf] that finds the target
    file up to date. *)
Definition up_to_date_events : list event :=
  [EExists conffile; EPrint msg_exist; ERead conffile; EPrint msg_written].

(** The lines printed in a trace, oldest first. *)
Definition printed (evs : list event) : list string :=
  flat_map (fun e => match e with EPrint msg => [msg] | _ => [] end) evs.

(** *** Concrete inputs *)

Definition example_config : Configuration :=
  {| account := Some "acme"; token := Some "XYZ";
     tags := Some ["prod"]; hostname := None |}.

Definition example_conf : string :=
  join LF
    [ "#          -------------------------------------------------------";
      "#          Syslog Logging Directives for Loggly (acme.loggly.com)";
      "#          -------------------------------------------------------";
      "# Define the template used for sending logs to Loggly. Do not change this format.";
      "$template LogglyFormat," ++ DQ ++ "<%pri%>%protocol-version% %timestamp:::date-rfc3339% %HOSTNAME% %app-name% %procid% %msgid% [XYZ@41058 tag="
        ++ BS ++ DQ ++ "Rsyslog" ++ BS ++ DQ ++ " tag=" ++ BS ++ DQ ++ "prod" ++ BS ++ DQ
        ++ "] %msg%\n" ++ DQ;
      "";
      "$WorkDirectory /var/spool/rsyslog # where to place spool files";
      "$ActionQueueFileName fwdRule1 # unique name prefix for spool files";
      "$ActionQueueMaxDiskSpace 1g   # 1gb space limit (use as much as possible)";
      "$ActionQueueSaveOnShutdown on # save messages to disk on shutdown";
      "$ActionQueueType LinkedList   # run asynchronously";
      "$ActionResumeRetryCount -1    # infinite retries if host is down";
      "";
      "# Send messages to Loggly over TCP using the template.";
      "*.*             @@logs-01.loggly.com:514;LogglyFormat";
      "#     -------------------------------------------------------";
      "" ].

(** A machine without the target file, one with a stale target file and
    an older backup, and one whose target file is up to date. *)
Definition fresh_world : world := World ∅ [] [0].
Definition stale_world : world :=
  World (<[backup := "older"]> {[conffile := "stale"]}) [] [0].
Definition settled_world : world := World {[conffile := example_conf]} [] [0].

(** A command line without options, and a splitter for an environment
    value without quotes or backslashes. *)
Definition bare_cli : cli :=
  {| cli_account := None; cli_token := None; cli_tags := None;
     cli_hostname := None; cli_remove := false |}.

Definition split_on_blanks (s : string) : outcome (list string) := Ok (String.words s).

(** *** Vocabulary of the further properties *)

(** The events of [write_rsyslog_conf], given what the target file holds
    and the rendered text. *)
Definition writer_events (found : option string) (new : string) : list event :=
  match found with
  | None => [EExists conffile; EWrite conffile new; EPrint msg_written]
  | Some old =>
      if String.eqb new old then up_to_date_events
      else [EExists conffile; EPrint msg_exist; ERead conffile;
            EPrint msg_changed; EPrint msg_backing_up; EMove conffile backup;
            EWrite conffile new; EPrint msg_written]
  end.

(** The files [write_rsyslog_conf] leaves, given the files it finds and
    the rendered text. *)
Definition files_after (f : gmap string string) (new : string) : gmap string string :=
  match f !! conffile with
  | None => <[conffile := new]> f
  | Some old =>
      if String.eqb new old then f
      else <[conffile := new]> (<[backup := old]> (delete conffile f))
  end.

(** How often a character occurs in a text. *)
Fixpoint count_char (c : ascii) (s : string) : nat :=
  match s with
  | EmptyString => 0%nat
  | String x r => ((if Ascii.eqb x c then 1 else 0) + count_char c r)%nat
  end.

(** The commands spawned in a trace, oldest first. *)
Definition calls (evs : list event) : list (list string) :=
  flat_map (fun e => match e with ECall argv => [argv] | _ => [] end) evs.

(** A second configuration, which renders differently from the first. *)
Definition second_config : Configuration :=
  {| account := Some "acme"; token := Some "XYZ";
     tags := None; hostname := Some "web-1" |}.

(** A splitter that refuses any quote, as [shlex.split] refuses a quote
    that is never closed. *)
Definition split_rejecting_quotes (s : string) : outcome (list string) :=
  if existsb (fun c => Ascii.eqb c "034" || Ascii.eqb c "'") (list_ascii_of_string s)
  then Raise ValueError
  else Ok (String.words s).

(** ** The renderer in closed form *)

Lemma append_assoc (a b c : string) : (a ++ b) ++ c = a ++ (b ++ c).
Proof.
  induction a as [|x a IH]; [reflexivity|].
  change (String x ((a ++ b) ++ c) = String x (a ++ (b ++ c))).
  by rewrite IH.
Qed.

(** The template once its first character and its margin are gone: the
    eight blanks in front of every line and the blanks of the last line. *)
Lemma dedent_template :
  dedent (drop_first template)
  = join LF
      [ "#          -------------------------------------------------------";
        "#          Syslog Logging Directives for Loggly (%(account)s.loggly.com)";
        "#          -------------------------------------------------------";
        "# Define the template used for sending logs to Loggly. Do not change this format.";
        "$template LogglyFormat," ++ DQ ++ "<%%pri%%>%%protocol-version%% %%timestamp:::date-rfc3339%% %(hostname)s %%app-name%% %%procid%% %%msgid%% [%(token)s@%(distribution_id)s %(tags)s] %%msg%%\n" ++ DQ;
        "";
        "$WorkDirectory /var/spool/rsyslog # where to place spool files";
        "$ActionQueueFileName fwdRule1 # unique name prefix for spool files";
        "$ActionQueueMaxDiskSpace 1g   # 1gb space limit (use as much as possible)";
        "$ActionQueueSaveOnShutdown on # save messages to disk on shutdown";
        "$ActionQueueType LinkedList   # run asynchronously";
        "$ActionResumeRetryCount -1    # infinite retries if host is down";
        "";
        "# Send messages to Loggly over TCP using the template.";
        "*.*             @@%(logs_host)s:%(logs_port)d;LogglyFormat";
        "#     -------------------------------------------------------";
        "" ].
Proof. vm_compute. reflexivity. Qed.

Ltac norm_key :=
  match goal with
  | |- context [lookup ?k _] =>
      let k' := eval vm_compute in k in change k with k'
  end.

Ltac format_step H := norm_key; rewrite H; cbn -[lookup pretty].

Lemma percent_template (args : gmap string fval) (a h t : fval) (g : string) :
  args !! "account" = Some a ->
  args !! "hostname" = Some h ->
  args !! "token" = Some t ->
  args !! "tags" = Some (VStr g) ->
  args !! "distribution_id" = Some (VStr "41058") ->
  args !! "logs_host" = Some (VStr "logs-01.loggly.com") ->
  args !! "logs_port" = Some (VInt 514) ->
  percent (dedent (drop_first template)) args
  = Ok (conf_head (py_str a) (py_str h) (py_str t) ++ g ++ conf_tail).
Proof.
  intros Ha Hh Ht Hg Hd Hl Hp.
  unfold percent.
  let x := eval vm_compute in (dedent (drop_first template)) in
  change (dedent (drop_first template)) with x.
  cbn -[lookup pretty].
  format_step Ha. format_step Hh. format_step Ht. format_step Hd.
  format_step Hg. format_step Hl. format_step Hp.
  unfold conf_head, conf_tail, join. cbn [String.concat].
  rewrite !append_assoc. reflexivity.
Qed.

Lemma all_tags_eq (config : Configuration) :
  all_tags config = "Rsyslog" :: default [] (tags config).
Proof.
  unfold all_tags. destruct (tags config) as [[|x l]|]; reflexivity.
Qed.

Lemma get_loggly_conf_eq (config : Configuration) :
  get_loggly_conf config
  = Ok (conf_head (text_of (account config)) (hostname_text (hostname config))
                  (text_of (token config))
        ++ tag_clause (all_tags config) ++ conf_tail).
Proof.
  unfold get_loggly_conf, hostname_text, text_of, tag_clause.
  destruct (truthy (hostname config)) eqn:Hh; cbn [negb].
  - destruct (hostname config) as [s|]; [|discriminate].
    apply (percent_template _ (of_opt (account config)) (VStr s) (of_opt (token config)));
      by simplify_map_eq.
  - apply (percent_template _ (of_opt (account config)) (VStr "%HOSTNAME%")
                              (of_opt (token config)));
      by simplify_map_eq.
Qed.

(** Rendering never fails. *)
Lemma get_loggly_conf_total (config : Configuration) :
  exists new, get_loggly_conf config = Ok new.
Proof. eexists. apply get_loggly_conf_eq. Qed.

(** The example of a configuration with one tag and no host name. *)
Lemma render_example : get_loggly_conf example_config = Ok example_conf.
Proof. vm_compute. reflexivity. Qed.

(** ** Running the functions of the script *)

Lemma conffile_eq : LOGGLY_RSYSLOG_CONFFILE = conffile.
Proof. reflexivity. Qed.

Lemma backup_eq : LOGGLY_RSYSLOG_CONFFILE_BACKUP = backup.
Proof. reflexivity. Qed.

Lemma conffile_ne_backup : conffile ≠ backup.
Proof. discriminate. Qed.

Lemma log_run (msg : string) (w : world) :
  log msg w = (if startswith "ERROR" msg then Exit 1 else Ok tt, emit (EPrint msg) w).
Proof.
  unfold log, bind, print, sys_exit, ret.
  destruct (startswith "ERROR" msg); reflexivity.
Qed.

Lemma world_eq (f f' : gmap string string) (t t' : list event) (s s' : list Z) :
  f = f' -> t = t' -> s = s' -> World f t s = World f' t' s'.
Proof. by intros -> -> ->. Qed.

Ltac unfold_prog :=
  unfold bind, lift, ret, print, sys_exit, os_path_exists, read_file, shutil_move,
    write_file, os_unlink, subprocess_call, emit, set_fs, six_b.

Ltac same_world :=
  apply world_eq; cbn [fs trace spawns];
  rewrite <- ?app_assoc; try reflexivity.

(** A logged line that does not begin with ERROR. *)
Ltac plain_log :=
  rewrite log_run; change (startswith "ERROR" _) with false; cbv iota.

Lemma restart_rsyslog_run
    (f : gmap string string) (t : list event) (code : Z) (rest : list Z) :
  restart_rsyslog (World f t (code :: rest))
  = (Ok tt,
     World f
       (t ++ [EPrint msg_restarting; ECall restart_argv]
          ++ (if code =? 0 then [] else [EPrint msg_not_restarted]))
       rest).
Proof.
  unfold restart_rsyslog. unfold bind at 1. plain_log.
  unfold_prog. cbn [fs trace spawns].
  destruct (code =? 0); cbn [negb].
  - f_equal. same_world.
  - plain_log. f_equal. unfold emit. same_world.
Qed.

Lemma restart_rsyslog_cannot_start (f : gmap string string) (t : list event) :
  restart_rsyslog (World f t [])
  = (Raise OSError, World f (t ++ [EPrint msg_restarting; ECall restart_argv]) []).
Proof.
  unfold restart_rsyslog. unfold bind at 1. plain_log.
  unfold_prog. cbn [fs trace spawns].
  f_equal. same_world.
Qed.

(** The three courses of [write_rsyslog_conf]. *)
Lemma write_rsyslog_conf_absent
    (config : Configuration) (new : string)
    (f : gmap string string) (t : list event) (s : list Z) :
  get_loggly_conf config = Ok new ->
  f !! conffile = None ->
  write_rsyslog_conf config (World f t s)
  = (Ok tt,
     World (<[conffile := new]> f)
           (t ++ [EExists conffile; EWrite conffile new; EPrint msg_written]) s).
Proof.
  intros Hnew Hf.
  unfold write_rsyslog_conf. rewrite Hnew, conffile_eq.
  unfold bind at 1. unfold lift.
  unfold bind at 1. unfold os_path_exists. cbn [fs].
  rewrite Hf, bool_decide_false by (by intros [? ?]).
  unfold bind at 1. unfold bind at 1. unfold ret at 1.
  unfold write_file, six_b. plain_log.
  f_equal. unfold emit, set_fs. same_world.
Qed.

Lemma write_rsyslog_conf_same
    (config : Configuration) (new : string)
    (f : gmap string string) (t : list event) (s : list Z) :
  get_loggly_conf config = Ok new ->
  f !! conffile = Some new ->
  write_rsyslog_conf config (World f t s)
  = (Ok tt, World f (t ++ up_to_date_events) s).
Proof.
  intros Hnew Hf.
  unfold write_rsyslog_conf. rewrite Hnew, conffile_eq.
  unfold bind at 1. unfold lift.
  unfold bind at 1. unfold os_path_exists. cbn [fs].
  rewrite Hf, bool_decide_true by eauto.
  unfold bind at 1. unfold bind at 1. plain_log.
  unfold bind at 1. unfold read_file, emit. cbn [fs trace spawns]. rewrite Hf.
  unfold six_b. rewrite String.eqb_refl. cbn [negb]. unfold ret at 1. unfold bind at 1.
  unfold ret at 1. plain_log.
  f_equal. unfold emit, up_to_date_events. same_world.
Qed.

Lemma write_rsyslog_conf_changed
    (config : Configuration) (new old : string)
    (f : gmap string string) (t : list event) (s : list Z) :
  get_loggly_conf config = Ok new ->
  f !! conffile = Some old ->
  old ≠ new ->
  write_rsyslog_conf config (World f t s)
  = (Ok tt,
     World (<[conffile := new]> (<[backup := old]> (delete conffile f)))
           (t ++ [EExists conffile; EPrint msg_exist; ERead conffile;
                  EPrint msg_changed; EPrint msg_backing_up; EMove conffile backup;
                  EWrite conffile new; EPrint msg_written]) s).
Proof.
  intros Hnew Hf Hne.
  unfold write_rsyslog_conf. rewrite Hnew, conffile_eq, backup_eq.
  unfold bind at 1. unfold lift.
  unfold bind at 1. unfold os_path_exists. cbn [fs].
  rewrite Hf, bool_decide_true by eauto.
  unfold bind at 1. unfold bind at 1. plain_log.
  unfold bind at 1. unfold read_file, emit. cbn [fs trace spawns]. rewrite Hf.
  unfold six_b.
  destruct (String.eqb new old) eqn:E.
  { apply String.eqb_eq in E. congruence. }
  cbn [negb].
  unfold bind at 1. plain_log.
  unfold bind at 1. plain_log.
  unfold bind at 1. unfold shutil_move, emit, set_fs. cbn [fs trace spawns]. rewrite Hf.
  unfold ret at 1. unfold bind at 1. unfold write_file, emit, set_fs. cbn [fs trace spawns].
  plain_log.
  f_equal. unfold emit. same_world.
Qed.

(** Whatever it finds, [write_rsyslog_conf] returns normally and leaves
    the rendered text in the target file. *)
Lemma write_rsyslog_conf_post (config : Configuration) (new : string) (w : world) :
  get_loggly_conf config = Ok new ->
  (write_rsyslog_conf config w).1 = Ok tt
  /\ fs (write_rsyslog_conf config w).2 !! conffile = Some new
  /\ spawns (write_rsyslog_conf config w).2 = spawns w.
Proof.
  intros Hnew. destruct w as [f t s].
  destruct (f !! conffile) as [old|] eqn:Hf.
  - destruct (decide (old = new)) as [->|Hne].
    + rewrite (write_rsyslog_conf_same config new f t s Hnew Hf).
      cbn [fst snd fs spawns]. by repeat split.
    + rewrite (write_rsyslog_conf_changed config new old f t s Hnew Hf Hne).
      cbn [fst snd fs spawns]. repeat split. apply lookup_insert_eq.
  - rewrite (write_rsyslog_conf_absent config new f t s Hnew Hf).
    cbn [fst snd fs spawns]. repeat split. apply lookup_insert_eq.
Qed.

Lemma restart_then_log (final : string) (w : world) :
  startswith "ERROR" final = false ->
  bind restart_rsyslog (fun _ => log final) w
  = (closing_outcome (spawns w),
     World (fs w) (trace w ++ closing_events (spawns w) final) (tail (spawns w))).
Proof.
  intros Hfinal. destruct w as [f t [|code rest]]; unfold bind, closing_events.
  - rewrite restart_rsyslog_cannot_start. reflexivity.
  - rewrite restart_rsyslog_run, log_run, Hfinal. cbn [closing_outcome spawns fs trace tail].
    f_equal. unfold emit. same_world.
Qed.

Lemma configure_run (config : Configuration) (w : world) :
  configure config w
  = match write_rsyslog_conf config (emit (EPrint msg_initiating) w) with
    | (Ok _, w1) =>
        (closing_outcome (spawns w1),
         World (fs w1) (trace w1 ++ closing_events (spawns w1) msg_configured)
               (tail (spawns w1)))
    | (Exit c, w1) => (Exit c, w1)
    | (Raise e, w1) => (Raise e, w1)
    end.
Proof.
  unfold configure. unfold bind at 1. plain_log.
  unfold bind at 1. unfold msg_initiating.
  match goal with
  | |- context [write_rsyslog_conf config ?w0] =>
      destruct (write_rsyslog_conf config w0) as [[[]|c|e] w1]
  end; try reflexivity.
  by apply restart_then_log.
Qed.

Lemma configure_fs (config : Configuration) (w : world) :
  fs (configure config w).2
  = fs (write_rsyslog_conf config (emit (EPrint msg_initiating) w)).2.
Proof.
  rewrite configure_run.
  by destruct (write_rsyslog_conf config (emit (EPrint msg_initiating) w)) as [[[]|c|e] w1].
Qed.


Lemma remove_loggly_conf_run (w : world) :
  remove_loggly_conf w
  = (Ok tt,
     World (delete conffile (fs w))
           (trace w ++ EExists conffile
                       :: match fs w !! conffile with
                          | Some _ => [EUnlink conffile]
                          | None => []
                          end)
           (spawns w)).
Proof.
  unfold remove_loggly_conf. rewrite conffile_eq.
  unfold bind, os_path_exists.
  destruct (fs w !! conffile) as [old|] eqn:Hf.
  - rewrite bool_decide_true by eauto.
    unfold os_unlink, emit, set_fs. cbn [fs trace spawns]. rewrite Hf.
    f_equal. same_world.
  - rewrite bool_decide_false by (by intros [? ?]).
    unfold ret, emit. f_equal. same_world.
    symmetry. by apply delete_id.
Qed.

Lemma unconfigure_run (w : world) :
  unconfigure w
  = (closing_outcome (spawns w),
     World (delete conffile (fs w))
           (trace w ++ [EPrint msg_uninstalling; EExists conffile]
              ++ match fs w !! conffile with
                 | Some _ => [EUnlink conffile]
                 | None => []
                 end
              ++ closing_events (spawns w) msg_uninstalled)
           (tail (spawns w))).
Proof.
  unfold unconfigure. unfold bind at 1. plain_log.
  unfold bind at 1. rewrite remove_loggly_conf_run.
  rewrite restart_then_log by reflexivity.
  unfold emit. cbn [fs trace spawns]. f_equal. same_world.
Qed.

(** ** The file writer *)

(** C1. When the target file exists and its content differs from the
    rendered text, [write_rsyslog_conf] returns normally, the backup
    file then holds the content the target had before the run (whatever
    the backup held before) and the target holds the rendered text; the
    same holds of the files once the whole of [configure] has run. *)
Theorem changed_file_backed_up_and_replaced
    (config : Configuration) (new old : string) (w : world) :
  get_loggly_conf config = Ok new ->
  fs w !! LOGGLY_RSYSLOG_CONFFILE = Some old ->
  old ≠ new ->
  (write_rsyslog_conf config w).1 = Ok tt
  /\ fs (write_rsyslog_conf config w).2 !! LOGGLY_RSYSLOG_CONFFILE_BACKUP = Some old
  /\ fs (write_rsyslog_conf config w).2 !! LOGGLY_RSYSLOG_CONFFILE = Some new
  /\ fs (configure config w).2 !! LOGGLY_RSYSLOG_CONFFILE_BACKUP = Some old
  /\ fs (configure config w).2 !! LOGGLY_RSYSLOG_CONFFILE = Some new.
Proof.
  intros Hnew Hf Hne. rewrite conffile_eq in *. rewrite backup_eq.
  rewrite configure_fs. destruct w as [f t s]. cbn [fs] in Hf.
  unfold emit. cbn [fs trace spawns].
  rewrite (write_rsyslog_conf_changed config new old f t s Hnew Hf Hne).
  rewrite (write_rsyslog_conf_changed config new old f _ s Hnew Hf Hne).
  cbn [fst snd fs].
  assert (Hb : <[conffile := new]> (<[backup := old]> (delete conffile f)) !! backup
               = Some old).
  { rewrite lookup_insert_ne by apply conffile_ne_backup. apply lookup_insert_eq. }
  assert (Hc : <[conffile := new]> (<[backup := old]> (delete conffile f)) !! conffile
               = Some new) by apply lookup_insert_eq.
  by repeat split.
Qed.

Lemma changed_file_witness :
  get_loggly_conf example_config = Ok example_conf
  /\ fs stale_world !! LOGGLY_RSYSLOG_CONFFILE = Some "stale"
  /\ (write_rsyslog_conf example_config stale_world).1 = Ok tt
  /\ fs (write_rsyslog_conf example_config stale_world).2
       !! LOGGLY_RSYSLOG_CONFFILE_BACKUP = Some "stale"
  /\ fs (write_rsyslog_conf example_config stale_world).2
       !! LOGGLY_RSYSLOG_CONFFILE = Some example_conf
  /\ fs (configure example_config stale_world).2
       !! LOGGLY_RSYSLOG_CONFFILE_BACKUP = Some "stale"
  /\ fs (configure example_config stale_world).2
       !! LOGGLY_RSYSLOG_CONFFILE = Some example_conf.
Proof.
  assert (H1 : get_loggly_conf example_config = Ok example_conf)
    by (vm_compute; reflexivity).
  assert (H2 : fs stale_world !! LOGGLY_RSYSLOG_CONFFILE = Some "stale")
    by (vm_compute; reflexivity).
  assert (H3 : "stale" ≠ example_conf) by (vm_compute; discriminate).
  split; [exact H1|]. split; [exact H2|].
  exact (changed_file_backed_up_and_replaced
           example_config example_conf "stale" stale_world H1 H2 H3).
Defined.

(** C2. When the target file already holds the rendered text,
    [write_rsyslog_conf] leaves every file as it is (no write, no
    backup) and only looks at and reads the target; hence a second run
    of [configure] with the same configuration, started where the first
    one ended, leaves the files as they are and produces no event that
    modifies a file. *)
Theorem unchanged_file_is_left_alone
    (config : Configuration) (new : string)
    (f : gmap string string) (t : list event) (s : list Z) (w : world) :
  get_loggly_conf config = Ok new ->
  write_rsyslog_conf config (World (<[LOGGLY_RSYSLOG_CONFFILE := new]> f) t s)
  = (Ok tt, World (<[LOGGLY_RSYSLOG_CONFFILE := new]> f) (t ++ up_to_date_events) s)
  /\ forallb (fun e => negb (modifies_files e)) up_to_date_events = true
  /\ (let w1 := (configure config w).2 in
      let w2 := (configure config w1).2 in
      fs w2 = fs w1
      /\ trace w2
         = (trace w1 ++ EPrint msg_initiating :: up_to_date_events
                     ++ closing_events (spawns w1) msg_configured)%list
      /\ forallb (fun e => negb (modifies_files e))
                 (EPrint msg_initiating :: up_to_date_events
                  ++ closing_events (spawns w1) msg_configured)%list = true).
Proof.
  intros Hnew. split; [|split; [reflexivity|]].
  - rewrite conffile_eq.
    apply (write_rsyslog_conf_same config new _ t s Hnew), lookup_insert_eq.
  - cbv zeta.
    assert (Hw1 : fs (configure config w).2 !! conffile = Some new).
    { rewrite configure_fs. by apply (write_rsyslog_conf_post config new). }
    destruct (configure config w).2 as [f1 t1 s1]. cbn [fs trace spawns] in *.
    rewrite configure_run. unfold emit. cbn [fs trace spawns].
    rewrite (write_rsyslog_conf_same config new _ _ _ Hnew Hw1). cbn [fs trace spawns snd].
    split; [reflexivity|]. split.
    + rewrite <- !app_assoc. reflexivity.
    + destruct s1 as [|code rest]; [reflexivity|].
      unfold closing_events. by destruct (code =? 0).
Qed.

Lemma unchanged_file_witness :
  get_loggly_conf example_config = Ok example_conf
  /\ write_rsyslog_conf example_config
       (World (<[LOGGLY_RSYSLOG_CONFFILE := example_conf]> ∅) [] [0])
     = (Ok tt,
        World (<[LOGGLY_RSYSLOG_CONFFILE := example_conf]> ∅) ([] ++ up_to_date_events) [0])
  /\ fs (configure example_config (configure example_config stale_world).2).2
     = fs (configure example_config stale_world).2.
Proof.
  assert (H1 : get_loggly_conf example_config = Ok example_conf)
    by (vm_compute; reflexivity).
  pose proof (unchanged_file_is_left_alone
                example_config example_conf ∅ [] [0] stale_world H1) as (Ha & _ & Hb & _).
  split; [exact H1|]. split; [exact Ha|exact Hb].
Defined.

(** C5. When the target file is absent, [write_rsyslog_conf] writes the
    rendered text to it with a single write and no move: every other
    file, the backup among them, is as before, also once the whole of
    [configure] has run. *)
Theorem absent_file_written_without_backup
    (config : Configuration) (new : string) (w : world) :
  get_loggly_conf config = Ok new ->
  fs w !! LOGGLY_RSYSLOG_CONFFILE = None ->
  write_rsyslog_conf config w
  = (Ok tt,
     World (<[LOGGLY_RSYSLOG_CONFFILE := new]> (fs w))
           (trace w ++ [EExists LOGGLY_RSYSLOG_CONFFILE;
                        EWrite LOGGLY_RSYSLOG_CONFFILE new;
                        EPrint msg_written])
           (spawns w))
  /\ fs (configure config w).2 = <[LOGGLY_RSYSLOG_CONFFILE := new]> (fs w)
  /\ fs (configure config w).2 !! LOGGLY_RSYSLOG_CONFFILE = Some new
  /\ fs (configure config w).2 !! LOGGLY_RSYSLOG_CONFFILE_BACKUP
     = fs w !! LOGGLY_RSYSLOG_CONFFILE_BACKUP.
Proof.
  intros Hnew Hf. rewrite conffile_eq in *. rewrite backup_eq.
  rewrite configure_fs. destruct w as [f t s]. cbn [fs] in Hf. unfold emit.
  cbn [fs trace spawns].
  rewrite (write_rsyslog_conf_absent config new f t s Hnew Hf).
  rewrite (write_rsyslog_conf_absent config new f _ s Hnew Hf).
  cbn [fst snd fs].
  split; [reflexivity|]. split; [reflexivity|]. split.
  - apply lookup_insert_eq.
  - apply lookup_insert_ne, conffile_ne_backup.
Qed.

Lemma absent_file_witness :
  get_loggly_conf example_config = Ok example_conf
  /\ fs fresh_world !! LOGGLY_RSYSLOG_CONFFILE = None
  /\ fs (configure example_config fresh_world).2
     = <[LOGGLY_RSYSLOG_CONFFILE := example_conf]> (fs fresh_world)
  /\ fs (configure example_config fresh_world).2 !! LOGGLY_RSYSLOG_CONFFILE_BACKUP
     = fs fresh_world !! LOGGLY_RSYSLOG_CONFFILE_BACKUP.
Proof.
  assert (H1 : get_loggly_conf example_config = Ok example_conf)
    by (vm_compute; reflexivity).
  assert (H2 : fs fresh_world !! LOGGLY_RSYSLOG_CONFFILE = None)
    by (vm_compute; reflexivity).
  pose proof (absent_file_written_without_backup
                example_config example_conf fresh_world H1 H2) as (_ & Ha & _ & Hb).
  split; [exact H1|]. split; [exact H2|]. split; [exact Ha|exact Hb].
Defined.

(** ** The remover *)

(** C6. [remove_loggly_conf] returns normally whether or not the target
    file is there: a file that is present is unlinked, an absent one
    leaves the files as they are.  In both cases [unconfigure] goes on to
    log the restart and to call the service command. *)
Theorem unconfigure_removes_then_restarts (w : world) :
  (remove_loggly_conf w).1 = Ok tt
  /\ fs (remove_loggly_conf w).2
     = match fs w !! LOGGLY_RSYSLOG_CONFFILE with
       | Some _ => delete LOGGLY_RSYSLOG_CONFFILE (fs w)
       | None => fs w
       end
  /\ fs (unconfigure w).2 !! LOGGLY_RSYSLOG_CONFFILE = None
  /\ fs (unconfigure w).2 = fs (remove_loggly_conf w).2
  /\ trace (unconfigure w).2
     = (trace w
        ++ [EPrint msg_uninstalling; EExists LOGGLY_RSYSLOG_CONFFILE]
        ++ match fs w !! LOGGLY_RSYSLOG_CONFFILE with
           | Some _ => [EUnlink LOGGLY_RSYSLOG_CONFFILE]
           | None => []
           end
        ++ [EPrint msg_restarting; ECall ["service"; RSYSLOG_SERVICE; "restart"]]
        ++ match spawns w with
           | [] => []
           | code :: _ =>
               (if code =? 0 then [] else [EPrint msg_not_restarted])
               ++ [EPrint msg_uninstalled]
           end)%list.
Proof.
  rewrite conffile_eq, unconfigure_run, remove_loggly_conf_run. cbn [fst snd fs trace].
  split; [reflexivity|]. split; [|split; [|split]].
  - destruct (fs w !! conffile) eqn:Hf; [reflexivity|]. by apply delete_id.
  - apply lookup_delete_eq.
  - reflexivity.
  - reflexivity.
Qed.

(** ** The service controller *)

(** C7, as stated, fails.  With exit code 0, [restart_rsyslog] prints its
    INFO line and nothing else: no line that starts with SUCCESS.  With
    exit code 1 a run of [configure] prints the WARNING line and after it
    the SUCCESS line of [configure]: the warning is not the only line
    that follows the failed restart. *)
Lemma restart_logs_counterexample :
  printed (trace (restart_rsyslog (World ∅ [] [0])).2) = [msg_restarting]
  /\ ~ Exists (fun line => startswith "SUCCESS" line = true)
        (printed (trace (restart_rsyslog (World ∅ [] [0])).2))
  /\ printed (trace (configure example_config (World ∅ [] [1])).2)
     = [msg_initiating; msg_written; msg_restarting; msg_not_restarted; msg_configured]
  /\ Exists (fun line => startswith "SUCCESS" line = true)
       (printed (trace (configure example_config (World ∅ [] [1])).2)).
Proof.
  assert (H0 : printed (trace (restart_rsyslog (World ∅ [] [0])).2) = [msg_restarting])
    by (vm_compute; reflexivity).
  assert (H1 : printed (trace (configure example_config (World ∅ [] [1])).2)
               = [msg_initiating; msg_written; msg_restarting; msg_not_restarted;
                  msg_configured])
    by (vm_compute; reflexivity).
  rewrite H0, H1. split; [reflexivity|]. split; [|split; [reflexivity|]].
  - intros H. apply Exists_cons in H as [H|H]; [discriminate H|inversion H].
  - do 4 apply Exists_cons_tl. apply Exists_cons_hd. reflexivity.
Qed.

(** C7, amended.  [restart_rsyslog] prints its INFO line, calls the
    service command and prints the WARNING line exactly when the exit
    code is not zero; it prints no success line of its own.  Whatever the
    exit code it returns normally and leaves the files alone; [configure]
    and [unconfigure] then print their SUCCESS line and return normally,
    so that the process ends with status 0. *)
Theorem restart_failure_is_only_warned
    (config : Configuration) (f : gmap string string) (t : list event)
    (code : Z) (rest : list Z) :
  restart_rsyslog (World f t (code :: rest))
  = (Ok tt,
     World f
       (t ++ [EPrint msg_restarting; ECall ["service"; RSYSLOG_SERVICE; "restart"]]
          ++ (if code =? 0 then [] else [EPrint msg_not_restarted]))
       rest)
  /\ unconfigure (World f t (code :: rest))
     = (Ok tt,
        World (delete LOGGLY_RSYSLOG_CONFFILE f)
          (t ++ [EPrint msg_uninstalling; EExists LOGGLY_RSYSLOG_CONFFILE]
             ++ match f !! LOGGLY_RSYSLOG_CONFFILE with
                | Some _ => [EUnlink LOGGLY_RSYSLOG_CONFFILE]
                | None => []
                end
             ++ [EPrint msg_restarting; ECall ["service"; RSYSLOG_SERVICE; "restart"]]
             ++ (if code =? 0 then [] else [EPrint msg_not_restarted])
             ++ [EPrint msg_uninstalled])
          rest)
  /\ (configure config (World f t (code :: rest))).1 = Ok tt
  /\ exit_status (configure config (World f t (code :: rest))).1 = 0
  /\ exists before,
       trace (configure config (World f t (code :: rest))).2
       = (before
          ++ [EPrint msg_restarting; ECall ["service"; RSYSLOG_SERVICE; "restart"]]
          ++ (if code =? 0 then [] else [EPrint msg_not_restarted])
          ++ [EPrint msg_configured])%list.
Proof.
  split; [apply restart_rsyslog_run|]. split.
  { rewrite unconfigure_run, conffile_eq. reflexivity. }
  destruct (get_loggly_conf_total config) as [new Hnew].
  rewrite configure_run.
  pose proof (write_rsyslog_conf_post config new
                (emit (EPrint msg_initiating) (World f t (code :: rest))) Hnew)
    as (Hok & _ & Hs).
  destruct (write_rsyslog_conf config _) as [r w1].
  cbn [fst snd] in *. subst r. unfold emit in Hs. cbn [spawns] in Hs. rewrite Hs.
  cbn [fst snd trace closing_outcome exit_status].
  split; [reflexivity|]. split; [reflexivity|].
  exists (trace w1). reflexivity.
Qed.

(** ** Logging *)

(** C8. [log] prints its message.  When the message begins with ERROR it
    then leaves through [sys.exit(1)]: what follows the call is not run
    and the process ends with status 1.  Any other message lets the
    caller go on. *)
Theorem log_error_marker_exits
    (A : Type) (msg suffix : string) (k : prog A) (w : world) :
  log msg w = (if startswith "ERROR" msg then Exit 1 else Ok tt, emit (EPrint msg) w)
  /\ log ("ERROR" ++ suffix) w = (Exit 1, emit (EPrint ("ERROR" ++ suffix)) w)
  /\ bind (log ("ERROR" ++ suffix)) (fun _ => k) w
     = (Exit 1, emit (EPrint ("ERROR" ++ suffix)) w)
  /\ bind (log msg) (fun _ => k) w
     = (if startswith "ERROR" msg then (Exit 1, emit (EPrint msg) w)
        else k (emit (EPrint msg) w))
  /\ exit_status (Exit 1) = 1.
Proof.
  assert (He : startswith "ERROR" ("ERROR" ++ suffix) = true).
  { unfold startswith. cbn. by destruct suffix. }
  split; [apply log_run|]. split; [by rewrite log_run, He|].
  split; [unfold bind; by rewrite log_run, He|].
  split; [|reflexivity].
  unfold bind. rewrite log_run. by destruct (startswith "ERROR" msg).
Qed.

(** ** The renderer *)

(** How many double quotes the tag clause holds. *)
Lemma count_char_app (c : ascii) (a b : string) :
  count_char c (a ++ b) = (count_char c a + count_char c b)%nat.
Proof.
  induction a as [|x a IH]; [reflexivity|].
  change (count_char c (String x (a ++ b))
          = (count_char c (String x a) + count_char c b)%nat).
  cbn [count_char]. rewrite IH. lia.
Qed.

Lemma count_quotes_tag_entry (x : string) :
  count_char "034" (tag_entry x) = (2 + count_char "034" x)%nat.
Proof.
  unfold tag_entry. rewrite !count_char_app.
  change (count_char "034" "tag=") with 0%nat.
  change (count_char "034" BS) with 0%nat.
  change (count_char "034" DQ) with 1%nat. lia.
Qed.

Lemma count_quotes_tag_clause (l : list string) :
  count_char "034" (join " " (map tag_entry l))
  = (2 * length l + list_sum (map (count_char "034") l))%nat.
Proof.
  unfold join. induction l as [|x l IH]; [reflexivity|].
  destruct l as [|y l].
  - change (String.concat " " (map tag_entry [x])) with (tag_entry x).
    rewrite count_quotes_tag_entry. unfold list_sum. cbn [map length fold_right]. lia.
  - change (String.concat " " (map tag_entry (x :: y :: l)))
      with (tag_entry x ++ " " ++ String.concat " " (map tag_entry (y :: l))).
    rewrite !count_char_app, IH, count_quotes_tag_entry.
    change (count_char "034" " ") with 0%nat.
    unfold list_sum. cbn [map length fold_right]. lia.
Qed.

(** C4. The tag clause of the rendered text sits between the head and the
    tail of the template and is the space-joined list of one entry per
    tag, each made of tag= , a backslash, a double quote, the tag, a
    backslash and a double quote: the entry of the fixed tag Rsyslog
    first, then the entries of the given tags in their order.  The list
    the code joins has one tag more than were given, and the fixed tag
    alone when none is given; the clause holds two double quotes for
    each of these entries, besides those inside the given tags. *)
Theorem tag_clause_entries
    (a t h : option string) (given : list string) :
  get_loggly_conf {| account := a; token := t; tags := Some given; hostname := h |}
  = Ok (conf_head (text_of a) (hostname_text h) (text_of t)
        ++ join " " (map (fun x => "tag=" ++ BS ++ DQ ++ x ++ BS ++ DQ)
                         ("Rsyslog" :: given))
        ++ conf_tail)
  /\ get_loggly_conf {| account := a; token := t; tags := None; hostname := h |}
     = Ok (conf_head (text_of a) (hostname_text h) (text_of t)
           ++ ("tag=" ++ BS ++ DQ ++ "Rsyslog" ++ BS ++ DQ)
           ++ conf_tail)
  /\ all_tags {| account := a; token := t; tags := Some given; hostname := h |}
     = "Rsyslog" :: given
  /\ length (all_tags {| account := a; token := t; tags := Some given; hostname := h |})
     = S (length given)
  /\ all_tags {| account := a; token := t; tags := None; hostname := h |}
     = ["Rsyslog"]
  /\ count_char "034"
       (join " " (map tag_entry
          (all_tags {| account := a; token := t; tags := Some given; hostname := h |})))
     = (2 * S (length given) + list_sum (map (count_char "034") given))%nat.
Proof.
  split; [|split; [|split; [|split; [|split]]]].
  - rewrite get_loggly_conf_eq, all_tags_eq. reflexivity.
  - rewrite get_loggly_conf_eq, all_tags_eq. reflexivity.
  - apply all_tags_eq.
  - by rewrite all_tags_eq.
  - apply all_tags_eq.
  - rewrite all_tags_eq, count_quotes_tag_clause. reflexivity.
Qed.

(** C9. An empty host name is rendered as the placeholder [%HOSTNAME%],
    and the output is the one of a configuration without host name. *)
Theorem empty_hostname_is_placeholder
    (a t : option string) (ts : option (list string)) :
  get_loggly_conf {| account := a; token := t; tags := ts; hostname := Some "" |}
  = get_loggly_conf {| account := a; token := t; tags := ts; hostname := None |}
  /\ get_loggly_conf {| account := a; token := t; tags := ts; hostname := Some "" |}
     = Ok (conf_head (text_of a) "%HOSTNAME%" (text_of t)
           ++ tag_clause ("Rsyslog" :: default [] ts)
           ++ conf_tail).
Proof.
  rewrite !get_loggly_conf_eq, !all_tags_eq. split; reflexivity.
Qed.

(** ** The option resolver *)

Section MainProperties.

Variable shlex_split : string -> outcome (list string).

(** C3. Without the remove flag, when the account or the token is neither
    on the command line nor in the environment, [main] prints the usage
    text and leaves with status 1; the usage text is the only event of
    the run, so no file was looked at, read or changed. *)
Theorem missing_credentials_exit
    (argv : cli) (environ : gmap string string) (w : world) :
  cli_remove argv = false ->
  (cli_account argv = None /\ environ !! "LOGGLY_ACCOUNT" = None)
  \/ (cli_token argv = None /\ environ !! "LOGGLY_TOKEN" = None) ->
  main shlex_split argv environ w
  = (Exit 1, World (fs w) (trace w ++ [EUsage]) (spawns w))
  /\ exit_status (main shlex_split argv environ w).1 = 1
  /\ forallb (fun e => negb (file_io e)) [EUsage] = true.
Proof.
  intros Hr Hmissing.
  assert (Hm : main shlex_split argv environ w
               = (Exit 1, World (fs w) (trace w ++ [EUsage]) (spawns w))).
  { unfold main, parse_args. cbn [ns_remove ns_account ns_token]. rewrite Hr.
    destruct Hmissing as [[-> ->]|[-> ->]]; cbn [with_default truthy negb orb].
    - reflexivity.
    - rewrite orb_true_r. reflexivity. }
  rewrite Hm. by repeat split.
Qed.


End MainProperties.

Lemma missing_credentials_witness :
  cli_remove bare_cli = false
  /\ ((cli_account bare_cli = None
       /\ ({["LOGGLY_TOKEN" := "XYZ"]} : gmap string string) !! "LOGGLY_ACCOUNT" = None)
      \/ (cli_token bare_cli = None
          /\ ({["LOGGLY_TOKEN" := "XYZ"]} : gmap string string) !! "LOGGLY_TOKEN" = None))
  /\ main split_on_blanks bare_cli {["LOGGLY_TOKEN" := "XYZ"]} stale_world
     = (Exit 1, World (fs stale_world) (trace stale_world ++ [EUsage]) (spawns stale_world)).
Proof.
  assert (H1 : cli_remove bare_cli = false) by reflexivity.
  assert (H2 : (cli_account bare_cli = None
                /\ ({["LOGGLY_TOKEN" := "XYZ"]} : gmap string string) !! "LOGGLY_ACCOUNT"
                   = None)
               \/ (cli_token bare_cli = None
                   /\ ({["LOGGLY_TOKEN" := "XYZ"]} : gmap string string) !! "LOGGLY_TOKEN"
                      = None))
    by (left; split; vm_compute; reflexivity).
  split; [exact H1|]. split; [exact H2|].
  exact (proj1 (missing_credentials_exit split_on_blanks bare_cli
                  {["LOGGLY_TOKEN" := "XYZ"]} stale_world H1 H2)).
Defined.

(** * Further properties *)

(** ** One description of the writer and of [configure] *)

Lemma write_rsyslog_conf_run
    (config : Configuration) (new : string)
    (f : gmap string string) (t : list event) (s : list Z) :
  get_loggly_conf config = Ok new ->
  write_rsyslog_conf config (World f t s)
  = (Ok tt, World (files_after f new) (t ++ writer_events (f !! conffile) new) s).
Proof.
  intros Hnew. unfold files_after, writer_events.
  destruct (f !! conffile) as [old|] eqn:Hf.
  - destruct (String.eqb new old) eqn:E.
    + apply String.eqb_eq in E. subst old.
      exact (write_rsyslog_conf_same config new f t s Hnew Hf).
    + apply String.eqb_neq in E.
      apply (write_rsyslog_conf_changed config new old f t s Hnew Hf). congruence.
  - exact (write_rsyslog_conf_absent config new f t s Hnew Hf).
Qed.

Lemma configure_run_all
    (config : Configuration) (new : string)
    (f : gmap string string) (t : list event) (s : list Z) :
  get_loggly_conf config = Ok new ->
  configure config (World f t s)
  = (closing_outcome s,
     World (files_after f new)
           (t ++ EPrint msg_initiating :: writer_events (f !! conffile) new
              ++ closing_events s msg_configured)
           (tail s)).
Proof.
  intros Hnew. rewrite configure_run. unfold emit. cbn [fs trace spawns].
  rewrite (write_rsyslog_conf_run config new f _ s Hnew). cbn [fs trace spawns].
  f_equal. same_world.
Qed.

Lemma files_after_target (f : gmap string string) (new : string) :
  files_after f new !! conffile = Some new.
Proof.
  unfold files_after. destruct (f !! conffile) as [old|] eqn:Hf.
  - destruct (String.eqb new old) eqn:E.
    + apply String.eqb_eq in E. by subst old.
    + apply lookup_insert_eq.
  - apply lookup_insert_eq.
Qed.

Lemma files_after_other (f : gmap string string) (new p : string) :
  p ≠ conffile -> p ≠ backup -> files_after f new !! p = f !! p.
Proof.
  intros Hc Hb. unfold files_after. destruct (f !! conffile) as [old|].
  - destruct (String.eqb new old); [reflexivity|].
    rewrite !lookup_insert_ne by done. by apply lookup_delete_ne.
  - by apply lookup_insert_ne.
Qed.

Lemma files_after_backup (f : gmap string string) (new : string) :
  files_after f new !! backup
  = match f !! conffile with
    | Some old => if String.eqb new old then f !! backup else Some old
    | None => f !! backup
    end.
Proof.
  unfold files_after. destruct (f !! conffile) as [old|].
  - destruct (String.eqb new old); [reflexivity|].
    rewrite lookup_insert_ne by apply conffile_ne_backup. apply lookup_insert_eq.
  - apply lookup_insert_ne, conffile_ne_backup.
Qed.

(** ** What [configure] and [unconfigure] touch and leave *)

(** X1. [configure] changes no file other than the target and its
    backup. *)
Theorem configure_touches_only_target_and_backup
    (config : Configuration) (w : world) (p : string) :
  p ≠ LOGGLY_RSYSLOG_CONFFILE ->
  p ≠ LOGGLY_RSYSLOG_CONFFILE_BACKUP ->
  fs (configure config w).2 !! p = fs w !! p.
Proof.
  rewrite conffile_eq, backup_eq. intros Hc Hb.
  destruct (get_loggly_conf_total config) as [new Hnew]. destruct w as [f t s].
  rewrite (configure_run_all config new f t s Hnew). cbn [snd fs].
  by apply files_after_other.
Qed.

Lemma configure_touches_only_witness :
  "/etc/rsyslog.conf" ≠ LOGGLY_RSYSLOG_CONFFILE
  /\ "/etc/rsyslog.conf" ≠ LOGGLY_RSYSLOG_CONFFILE_BACKUP
  /\ fs (configure example_config
           (World (<["/etc/rsyslog.conf" := "*.* /var/log/messages"]>
                     {[conffile := "stale"]}) [] [0])).2 !! "/etc/rsyslog.conf"
     = Some "*.* /var/log/messages".
Proof.
  assert (H1 : "/etc/rsyslog.conf" ≠ LOGGLY_RSYSLOG_CONFFILE) by discriminate.
  assert (H2 : "/etc/rsyslog.conf" ≠ LOGGLY_RSYSLOG_CONFFILE_BACKUP) by discriminate.
  split; [exact H1|]. split; [exact H2|].
  rewrite (configure_touches_only_target_and_backup example_config _ _ H1 H2).
  vm_compute. reflexivity.
Defined.

(** X2. [unconfigure] changes no file other than the target: the backup
    that an earlier run made is neither removed nor put back. *)
Theorem unconfigure_touches_only_target (w : world) (p : string) :
  p ≠ LOGGLY_RSYSLOG_CONFFILE ->
  fs (unconfigure w).2 !! p = fs w !! p
  /\ fs (unconfigure w).2 !! LOGGLY_RSYSLOG_CONFFILE_BACKUP
     = fs w !! LOGGLY_RSYSLOG_CONFFILE_BACKUP.
Proof.
  rewrite conffile_eq, backup_eq. intros Hc.
  rewrite unconfigure_run. cbn [snd fs]. split.
  - by apply lookup_delete_ne.
  - apply lookup_delete_ne, conffile_ne_backup.
Qed.

Lemma unconfigure_touches_only_witness :
  LOGGLY_RSYSLOG_CONFFILE_BACKUP ≠ LOGGLY_RSYSLOG_CONFFILE
  /\ fs (unconfigure stale_world).2 !! LOGGLY_RSYSLOG_CONFFILE_BACKUP = Some "older".
Proof.
  assert (H1 : LOGGLY_RSYSLOG_CONFFILE_BACKUP ≠ LOGGLY_RSYSLOG_CONFFILE) by discriminate.
  split; [exact H1|].
  rewrite (proj1 (unconfigure_touches_only_target stale_world _ H1)).
  vm_compute. reflexivity.
Defined.

(** X3. Removal after a replacement does not bring the replaced file
    back: once [configure] has replaced a target with other content and
    [unconfigure] has run, the target is gone and the content it had
    before the two runs is in the backup. *)
Theorem configure_then_unconfigure
    (config : Configuration) (new old : string) (w : world) :
  get_loggly_conf config = Ok new ->
  fs w !! LOGGLY_RSYSLOG_CONFFILE = Some old ->
  old ≠ new ->
  fs (unconfigure (configure config w).2).2 !! LOGGLY_RSYSLOG_CONFFILE = None
  /\ fs (unconfigure (configure config w).2).2 !! LOGGLY_RSYSLOG_CONFFILE_BACKUP
     = Some old.
Proof.
  rewrite conffile_eq, backup_eq. intros Hnew Hf Hne. destruct w as [f t s].
  cbn [fs] in Hf.
  rewrite unconfigure_run, (configure_run_all config new f t s Hnew). cbn [snd fs].
  split; [apply lookup_delete_eq|].
  rewrite lookup_delete_ne by apply conffile_ne_backup.
  rewrite files_after_backup, Hf.
  destruct (String.eqb new old) eqn:E; [|reflexivity].
  apply String.eqb_eq in E. congruence.
Qed.

Lemma configure_then_unconfigure_witness :
  get_loggly_conf example_config = Ok example_conf
  /\ fs stale_world !! LOGGLY_RSYSLOG_CONFFILE = Some "stale"
  /\ fs (unconfigure (configure example_config stale_world).2).2
       !! LOGGLY_RSYSLOG_CONFFILE = None
  /\ fs (unconfigure (configure example_config stale_world).2).2
       !! LOGGLY_RSYSLOG_CONFFILE_BACKUP = Some "stale".
Proof.
  assert (H1 : get_loggly_conf example_config = Ok example_conf)
    by (vm_compute; reflexivity).
  assert (H2 : fs stale_world !! LOGGLY_RSYSLOG_CONFFILE = Some "stale")
    by (vm_compute; reflexivity).
  assert (H3 : "stale" ≠ example_conf) by (vm_compute; discriminate).
  split; [exact H1|]. split; [exact H2|].
  exact (configure_then_unconfigure example_config example_conf "stale" stale_world
           H1 H2 H3).
Defined.

(** X4. The backup keeps one generation.  After two runs of [configure]
    whose renderings differ, the target holds the second rendering and
    the backup the first one, whatever the target and the backup held
    before the first run. *)
Theorem second_change_overwrites_backup
    (c1 c2 : Configuration) (new1 new2 : string) (w : world) :
  get_loggly_conf c1 = Ok new1 ->
  get_loggly_conf c2 = Ok new2 ->
  new1 ≠ new2 ->
  fs (configure c2 (configure c1 w).2).2 !! LOGGLY_RSYSLOG_CONFFILE = Some new2
  /\ fs (configure c2 (configure c1 w).2).2 !! LOGGLY_RSYSLOG_CONFFILE_BACKUP
     = Some new1.
Proof.
  rewrite conffile_eq, backup_eq. intros H1 H2 Hne. destruct w as [f t s].
  rewrite (configure_run_all c1 new1 f t s H1). cbn [snd].
  rewrite (configure_run_all c2 new2 _ _ _ H2). cbn [snd fs].
  split; [apply files_after_target|].
  rewrite files_after_backup, files_after_target.
  destruct (String.eqb new2 new1) eqn:E; [|reflexivity].
  apply String.eqb_eq in E. congruence.
Qed.

Lemma second_change_witness :
  get_loggly_conf example_config = Ok example_conf
  /\ (exists new2, get_loggly_conf second_config = Ok new2 /\ example_conf ≠ new2)
  /\ fs (configure second_config (configure example_config stale_world).2).2
       !! LOGGLY_RSYSLOG_CONFFILE_BACKUP = Some example_conf.
Proof.
  assert (H1 : get_loggly_conf example_config = Ok example_conf)
    by (vm_compute; reflexivity).
  assert (H2 : get_loggly_conf second_config
               = Ok (conf_head "acme" "web-1" "XYZ" ++ tag_clause ["Rsyslog"] ++ conf_tail))
    by (vm_compute; reflexivity).
  assert (H3 : example_conf
               ≠ conf_head "acme" "web-1" "XYZ" ++ tag_clause ["Rsyslog"] ++ conf_tail)
    by (vm_compute; discriminate).
  split; [exact H1|]. split; [eexists; split; [exact H2|exact H3]|].
  exact (proj2 (second_change_overwrites_backup example_config second_config _ _
                  stale_world H1 H2 H3)).
Defined.

(** X5. Removing twice is harmless: the second [unconfigure] finds no
    target, unlinks nothing, leaves the files as they are and ends as the
    first one would, after the same restart. *)
Theorem unconfigure_twice (w : world) :
  fs (unconfigure (unconfigure w).2).2 = fs (unconfigure w).2
  /\ (unconfigure (unconfigure w).2).1 = closing_outcome (tail (spawns w))
  /\ trace (unconfigure (unconfigure w).2).2
     = (trace (unconfigure w).2
        ++ [EPrint msg_uninstalling; EExists LOGGLY_RSYSLOG_CONFFILE]
        ++ closing_events (tail (spawns w)) msg_uninstalled)%list.
Proof.
  rewrite conffile_eq, !unconfigure_run. cbn [fst snd fs trace spawns].
  rewrite lookup_delete_eq. split; [|split; reflexivity].
  apply delete_id, lookup_delete_eq.
Qed.

(** X6. Installing after a removal writes the target afresh: one write,
    no read and no move, so the backup is the one the machine had before
    the removal. *)
Theorem unconfigure_then_configure
    (config : Configuration) (new : string) (w : world) :
  get_loggly_conf config = Ok new ->
  fs (configure config (unconfigure w).2).2
  = <[LOGGLY_RSYSLOG_CONFFILE := new]> (delete LOGGLY_RSYSLOG_CONFFILE (fs w))
  /\ fs (configure config (unconfigure w).2).2 !! LOGGLY_RSYSLOG_CONFFILE_BACKUP
     = fs w !! LOGGLY_RSYSLOG_CONFFILE_BACKUP
  /\ trace (configure config (unconfigure w).2).2
     = (trace (unconfigure w).2
        ++ [EPrint msg_initiating; EExists LOGGLY_RSYSLOG_CONFFILE;
            EWrite LOGGLY_RSYSLOG_CONFFILE new; EPrint msg_written]
        ++ closing_events (tail (spawns w)) msg_configured)%list.
Proof.
  rewrite conffile_eq, backup_eq. intros Hnew.
  rewrite unconfigure_run. cbn [snd].
  rewrite (configure_run_all config new _ _ _ Hnew). cbn [snd fs trace].
  unfold files_after, writer_events. rewrite lookup_delete_eq.
  split; [reflexivity|]. split; [|reflexivity].
  rewrite lookup_insert_ne by apply conffile_ne_backup.
  apply lookup_delete_ne, conffile_ne_backup.
Qed.

Lemma unconfigure_then_configure_witness :
  get_loggly_conf example_config = Ok example_conf
  /\ fs (configure example_config (unconfigure stale_world).2).2
       !! LOGGLY_RSYSLOG_CONFFILE_BACKUP
     = fs stale_world !! LOGGLY_RSYSLOG_CONFFILE_BACKUP.
Proof.
  assert (H1 : get_loggly_conf example_config = Ok example_conf)
    by (vm_compute; reflexivity).
  split; [exact H1|].
  exact (proj1 (proj2 (unconfigure_then_configure example_config example_conf
                         stale_world H1))).
Defined.

(** ** How a run ends *)

Lemma calls_app (a b : list event) : calls (a ++ b) = (calls a ++ calls b)%list.
Proof. apply flat_map_app. Qed.

Lemma calls_writer_events (found : option string) (new : string) :
  calls (writer_events found new) = [].
Proof.
  unfold writer_events. destruct found as [old|]; [|reflexivity].
  by destruct (String.eqb new old).
Qed.

Lemma calls_closing_events (s : list Z) (final : string) :
  calls (closing_events s final) = [restart_argv].
Proof.
  destruct s as [|code rest]; [reflexivity|].
  unfold closing_events. by destruct (code =? 0).
Qed.

(** X7. [configure] and [unconfigure] never leave through [sys.exit]: no
    line they log begins with ERROR.  Each returns normally when the
    service command can be started, whatever its exit code, and raises
    the error of the spawn otherwise.  Each adds exactly one command to
    those spawned so far, [service rsyslog restart], and uses up one
    pending exit code. *)
Theorem runs_never_exit_by_log (config : Configuration) (w : world) :
  (configure config w).1
  = match spawns w with
    | [] => Raise OSError
    | _ :: _ => Ok tt
    end
  /\ (unconfigure w).1
     = match spawns w with
       | [] => Raise OSError
       | _ :: _ => Ok tt
       end
  /\ spawns (configure config w).2 = tail (spawns w)
  /\ spawns (unconfigure w).2 = tail (spawns w)
  /\ calls (trace (configure config w).2)
     = (calls (trace w) ++ [["service"; RSYSLOG_SERVICE; "restart"]])%list
  /\ calls (trace (unconfigure w).2)
     = (calls (trace w) ++ [["service"; RSYSLOG_SERVICE; "restart"]])%list.
Proof.
  destruct (get_loggly_conf_total config) as [new Hnew]. destruct w as [f t s].
  rewrite (configure_run_all config new f t s Hnew), unconfigure_run.
  cbn [fst snd spawns trace fs].
  split; [reflexivity|]. split; [reflexivity|].
  split; [reflexivity|]. split; [reflexivity|]. split.
  - rewrite calls_app.
    change (EPrint msg_initiating
            :: writer_events (f !! conffile) new ++ closing_events s msg_configured)%list
      with ([EPrint msg_initiating]
            ++ writer_events (f !! conffile) new ++ closing_events s msg_configured)%list.
    by rewrite !calls_app, calls_writer_events, calls_closing_events.
  - rewrite !calls_app, calls_closing_events.
    by destruct (f !! conffile).
Qed.

(** X8. The whole trace of [configure]: its opening line, the events of
    the writer, then the restart.  The service command is called once,
    also when the target was up to date and nothing was written, and
    nothing touches a file once the restart has begun. *)
Theorem configure_trace
    (config : Configuration) (new : string) (w : world) :
  get_loggly_conf config = Ok new ->
  trace (configure config w).2
  = (trace w
     ++ EPrint msg_initiating
        :: writer_events (fs w !! LOGGLY_RSYSLOG_CONFFILE) new
     ++ closing_events (spawns w) msg_configured)%list
  /\ calls (EPrint msg_initiating
            :: writer_events (fs w !! LOGGLY_RSYSLOG_CONFFILE) new
            ++ closing_events (spawns w) msg_configured)%list
     = [["service"; RSYSLOG_SERVICE; "restart"]]
  /\ forallb (fun e => negb (file_io e)) (closing_events (spawns w) msg_configured)
     = true.
Proof.
  rewrite conffile_eq. intros Hnew. destruct w as [f t s].
  rewrite (configure_run_all config new f t s Hnew). cbn [snd fs trace spawns].
  split; [reflexivity|].
  assert (Hw : calls (writer_events (f !! conffile) new) = []).
  { unfold writer_events. destruct (f !! conffile) as [old|]; [|reflexivity].
    by destruct (String.eqb new old). }
  assert (Hc : calls (closing_events s msg_configured) = [restart_argv]
               /\ forallb (fun e => negb (file_io e)) (closing_events s msg_configured)
                  = true).
  { destruct s as [|code rest]; [by split|].
    unfold closing_events. by destruct (code =? 0). }
  destruct Hc as [Hc1 Hc2]. split; [|exact Hc2].
  unfold calls in *. cbn [flat_map app]. rewrite flat_map_app, Hw, Hc1. reflexivity.
Qed.

Lemma configure_trace_witness :
  get_loggly_conf example_config = Ok example_conf
  /\ trace (configure example_config settled_world).2
     = [EPrint msg_initiating; EExists conffile; EPrint msg_exist; ERead conffile;
        EPrint msg_written; EPrint msg_restarting; ECall restart_argv;
        EPrint msg_configured].
Proof.
  assert (H1 : get_loggly_conf example_config = Ok example_conf)
    by (vm_compute; reflexivity).
  split; [exact H1|].
  rewrite (proj1 (configure_trace example_config example_conf settled_world H1)).
  vm_compute. reflexivity.
Defined.

(** X9. When the service command cannot be started, [configure] raises
    the error of the spawn after the writer has finished: the target
    holds the rendered text, the line of success is not logged, and the
    process ends with status 1. *)
Theorem configure_when_restart_cannot_start
    (config : Configuration) (new : string)
    (f : gmap string string) (t : list event) :
  get_loggly_conf config = Ok new ->
  (configure config (World f t [])).1 = Raise OSError
  /\ exit_status (configure config (World f t [])).1 = 1
  /\ fs (configure config (World f t [])).2 !! LOGGLY_RSYSLOG_CONFFILE = Some new
  /\ trace (configure config (World f t [])).2
     = (t ++ EPrint msg_initiating
           :: writer_events (f !! LOGGLY_RSYSLOG_CONFFILE) new
        ++ [EPrint msg_restarting; ECall ["service"; RSYSLOG_SERVICE; "restart"]])%list.
Proof.
  rewrite conffile_eq. intros Hnew.
  rewrite (configure_run_all config new f t [] Hnew). cbn [fst snd fs trace].
  split; [reflexivity|]. split; [reflexivity|]. split; [apply files_after_target|].
  reflexivity.
Qed.

Lemma configure_when_restart_cannot_start_witness :
  get_loggly_conf example_config = Ok example_conf
  /\ (configure example_config (World ∅ [] [])).1 = Raise OSError
  /\ fs (configure example_config (World ∅ [] [])).2 !! LOGGLY_RSYSLOG_CONFFILE
     = Some example_conf.
Proof.
  assert (H1 : get_loggly_conf example_config = Ok example_conf)
    by (vm_compute; reflexivity).
  pose proof (configure_when_restart_cannot_start example_config example_conf ∅ [] H1)
    as (Ha & _ & Hb & _).
  split; [exact H1|]. split; [exact Ha|exact Hb].
Defined.

(** ** More on the option resolver *)

Section MainFurther.

Variable shlex_split : string -> outcome (list string).

(** X10. With the remove flag [main] is [unconfigure], whatever the
    other options and the environment are: no account or token is asked
    for, and the target is absent afterwards. *)
Theorem remove_flag_needs_nothing_else
    (a t h : option string) (ts : option (list string))
    (environ : gmap string string) (w : world) :
  main shlex_split
       {| cli_account := a; cli_token := t; cli_tags := ts;
          cli_hostname := h; cli_remove := true |}
       environ w
  = unconfigure w
  /\ main shlex_split
          {| cli_account := a; cli_token := t; cli_tags := ts;
             cli_hostname := h; cli_remove := true |}
          environ w
     = main shlex_split
            {| cli_account := None; cli_token := None; cli_tags := None;
               cli_hostname := None; cli_remove := true |}
            ∅ w
  /\ fs (main shlex_split
              {| cli_account := a; cli_token := t; cli_tags := ts;
                 cli_hostname := h; cli_remove := true |}
              environ w).2 !! LOGGLY_RSYSLOG_CONFFILE = None.
Proof.
  assert (Hm : forall a' t' ts' h' env',
    main shlex_split
         {| cli_account := a'; cli_token := t'; cli_tags := ts';
            cli_hostname := h'; cli_remove := true |} env' w = unconfigure w)
    by reflexivity.
  rewrite !Hm, conffile_eq, unconfigure_run. cbn [snd fs].
  split; [reflexivity|]. split; [reflexivity|]. apply lookup_delete_eq.
Qed.

(** X11. An empty account or token counts as missing.  An empty value
    given on the command line is not replaced by the value of the
    environment, and an empty value of the environment is no fallback:
    [main] prints the usage text and leaves with status 1, before any
    other event. *)
Theorem empty_credentials_rejected
    (argv : cli) (environ : gmap string string) (w : world) :
  cli_remove argv = false ->
  cli_account argv = Some ""
  \/ cli_token argv = Some ""
  \/ (cli_account argv = None /\ environ !! "LOGGLY_ACCOUNT" = Some "")
  \/ (cli_token argv = None /\ environ !! "LOGGLY_TOKEN" = Some "") ->
  main shlex_split argv environ w
  = (Exit 1, World (fs w) (trace w ++ [EUsage]) (spawns w)).
Proof.
  intros Hr Hempty.
  unfold main, parse_args. cbn [ns_remove ns_account ns_token]. rewrite Hr.
  destruct Hempty as [->|[->|[[-> ->]|[-> ->]]]]; cbn [with_default truthy negb orb];
    try reflexivity; rewrite orb_true_r; reflexivity.
Qed.

(** X12. A value given on the command line wins: with [--account],
    [--token], [--hostname] or [--tags] given, the run is the same
    whatever the matching variable of the environment holds. *)
Theorem command_line_wins_over_environment
    (a t h : option string) (ts : option (list string)) (r : bool)
    (given v : string) (l : list string)
    (environ : gmap string string) (w : world) :
  main shlex_split
       {| cli_account := Some given; cli_token := t; cli_tags := ts;
          cli_hostname := h; cli_remove := r |}
       (<["LOGGLY_ACCOUNT" := v]> environ) w
  = main shlex_split
         {| cli_account := Some given; cli_token := t; cli_tags := ts;
            cli_hostname := h; cli_remove := r |}
         (delete "LOGGLY_ACCOUNT" environ) w
  /\ main shlex_split
          {| cli_account := a; cli_token := Some given; cli_tags := ts;
             cli_hostname := h; cli_remove := r |}
          (<["LOGGLY_TOKEN" := v]> environ) w
     = main shlex_split
            {| cli_account := a; cli_token := Some given; cli_tags := ts;
               cli_hostname := h; cli_remove := r |}
            (delete "LOGGLY_TOKEN" environ) w
  /\ main shlex_split
          {| cli_account := a; cli_token := t; cli_tags := ts;
             cli_hostname := Some given; cli_remove := r |}
          (<["LOGGLY_HOSTNAME" := v]> environ) w
     = main shlex_split
            {| cli_account := a; cli_token := t; cli_tags := ts;
               cli_hostname := Some given; cli_remove := r |}
            (delete "LOGGLY_HOSTNAME" environ) w
  /\ main shlex_split
          {| cli_account := a; cli_token := t; cli_tags := Some l;
             cli_hostname := h; cli_remove := r |}
          (<["LOGGLY_TAGS" := v]> environ) w
     = main shlex_split
            {| cli_account := a; cli_token := t; cli_tags := Some l;
               cli_hostname := h; cli_remove := r |}
            (delete "LOGGLY_TAGS" environ) w.
Proof.
  split; [|split; [|split]]; unfold main, parse_args;
    cbn [ns_remove ns_account ns_token ns_tags ns_hostname
         cli_remove cli_account cli_token cli_tags cli_hostname with_default];
    by rewrite !lookup_insert_ne, !lookup_delete_ne.
Qed.

(** X13. Without [--tags], a non-empty LOGGLY_TAGS that [shlex.split]
    accepts gives the tags: the run is the one of [--tags] followed by
    the words of the split. *)
Theorem environment_tags_are_split
    (a t h : option string) (r : bool) (s : string) (l : list string)
    (environ : gmap string string) (w : world) :
  environ !! "LOGGLY_TAGS" = Some s ->
  s ≠ "" ->
  shlex_split s = Ok l ->
  main shlex_split
       {| cli_account := a; cli_token := t; cli_tags := None;
          cli_hostname := h; cli_remove := r |}
       environ w
  = main shlex_split
         {| cli_account := a; cli_token := t; cli_tags := Some l;
            cli_hostname := h; cli_remove := r |}
         environ w.
Proof.
  intros He Hs Hl. unfold main, parse_args.
  cbn [ns_remove ns_account ns_token ns_tags ns_hostname
       cli_remove cli_account cli_token cli_tags cli_hostname].
  destruct r; [reflexivity|]. destruct (_ || _); [reflexivity|].
  rewrite He. cbn [truthy from_option]. unfold id.
  apply String.eqb_neq in Hs. rewrite Hs. cbn [negb].
  rewrite Hl. reflexivity.
Qed.

(** X14. Without [--tags], a LOGGLY_TAGS that [shlex.split] refuses makes
    a run with account and token raise the error of the split at once:
    nothing is logged, no file is looked at and no command is spawned. *)
Theorem malformed_environment_tags_abort
    (account_given token_given : string) (h : option string)
    (s : string) (e : exn)
    (environ : gmap string string) (w : world) :
  account_given ≠ "" ->
  token_given ≠ "" ->
  environ !! "LOGGLY_TAGS" = Some s ->
  s ≠ "" ->
  shlex_split s = Raise e ->
  main shlex_split
       {| cli_account := Some account_given; cli_token := Some token_given;
          cli_tags := None; cli_hostname := h; cli_remove := false |}
       environ w
  = (Raise e, w).
Proof.
  intros Ha Ht He Hs Hl. unfold main, parse_args.
  cbn [ns_remove ns_account ns_token ns_tags ns_hostname
       cli_remove cli_account cli_token cli_tags cli_hostname with_default truthy].
  apply String.eqb_neq in Ha, Ht, Hs. rewrite Ha, Ht. cbn [negb orb].
  rewrite He. cbn [truthy from_option]. unfold id. rewrite Hs. cbn [negb].
  rewrite Hl. reflexivity.
Qed.

(** X15. An empty LOGGLY_TAGS is no tags at all: without [--tags] the run
    is the one without the variable, and [shlex.split] is not called
    (the run is the same for every splitter). *)
Theorem empty_environment_tags_are_absent
    (other_split : string -> outcome (list string))
    (a t h : option string) (r : bool)
    (environ : gmap string string) (w : world) :
  main shlex_split
       {| cli_account := a; cli_token := t; cli_tags := None;
          cli_hostname := h; cli_remove := r |}
       (<["LOGGLY_TAGS" := ""]> environ) w
  = main other_split
         {| cli_account := a; cli_token := t; cli_tags := None;
            cli_hostname := h; cli_remove := r |}
         (delete "LOGGLY_TAGS" environ) w.
Proof.
  unfold main, parse_args.
  cbn [ns_remove ns_account ns_token ns_tags ns_hostname
       cli_remove cli_account cli_token cli_tags cli_hostname].
  rewrite lookup_insert_eq, lookup_delete_eq, !lookup_insert_ne, !lookup_delete_ne by done.
  reflexivity.
Qed.


(** X17. Once [argparse] has accepted the command line, the exit status
    is 0 or 1.  When [shlex.split] itself does not call [sys.exit], the
    code of [main] after [parse_args] returns normally (status 0),
    leaves through [sys.exit(1)], or raises (status 1); it never leaves
    with another status.  (The status 2 of a command line that
    [argparse] rejects comes from [parse_args] itself.) *)
Theorem exit_status_is_zero_or_one
    (argv : cli) (environ : gmap string string) (w : world) :
  (forall s c, shlex_split s ≠ Exit c) ->
  (main shlex_split argv environ w).1 = Ok tt
  \/ (main shlex_split argv environ w).1 = Exit 1
  \/ exists e, (main shlex_split argv environ w).1 = Raise e.
Proof.
  intros Hsplit.
  assert (Hclose : forall s : list Z,
            closing_outcome s = Ok tt \/ closing_outcome s = Exit 1
            \/ exists e, closing_outcome s = Raise e).
  { intros [|code rest]; [right; right; by eexists|by left]. }
  assert (Hconf : forall c w', (configure c w').1 = Ok tt \/ (configure c w').1 = Exit 1
                               \/ exists e, (configure c w').1 = Raise e).
  { intros c [f t s]. destruct (get_loggly_conf_total c) as [new Hnew].
    rewrite (configure_run_all c new f t s Hnew). apply Hclose. }
  unfold main. destruct (ns_remove (parse_args argv environ)).
  { rewrite unconfigure_run. apply Hclose. }
  destruct (_ || _); [right; left; reflexivity|].
  destruct (ns_tags (parse_args argv environ)) as [l|].
  { apply Hconf. }
  destruct (truthy (environ !! "LOGGLY_TAGS")); [|apply Hconf].
  unfold bind at 1. unfold bind at 1. unfold lift.
  destruct (shlex_split _) as [l|c|e] eqn:E.
  - apply Hconf.
  - by apply Hsplit in E.
  - right; right. by eexists.
Qed.

End MainFurther.

Lemma empty_credentials_witness :
  cli_remove {| cli_account := Some ""; cli_token := Some "XYZ"; cli_tags := None;
                cli_hostname := None; cli_remove := false |} = false
  /\ main split_on_blanks
          {| cli_account := Some ""; cli_token := Some "XYZ"; cli_tags := None;
             cli_hostname := None; cli_remove := false |}
          {["LOGGLY_ACCOUNT" := "acme"]} fresh_world
     = (Exit 1, World (fs fresh_world) (trace fresh_world ++ [EUsage]) (spawns fresh_world)).
Proof.
  split; [reflexivity|].
  apply (empty_credentials_rejected split_on_blanks); [reflexivity|].
  left. reflexivity.
Defined.

Lemma environment_tags_witness :
  ({["LOGGLY_TAGS" := "prod web"]} : gmap string string) !! "LOGGLY_TAGS" = Some "prod web"
  /\ split_on_blanks "prod web" = Ok ["prod"; "web"]
  /\ main split_on_blanks
          {| cli_account := Some "acme"; cli_token := Some "XYZ"; cli_tags := None;
             cli_hostname := None; cli_remove := false |}
          {["LOGGLY_TAGS" := "prod web"]} fresh_world
     = main split_on_blanks
            {| cli_account := Some "acme"; cli_token := Some "XYZ";
               cli_tags := Some ["prod"; "web"];
               cli_hostname := None; cli_remove := false |}
            {["LOGGLY_TAGS" := "prod web"]} fresh_world.
Proof.
  assert (H1 : ({["LOGGLY_TAGS" := "prod web"]} : gmap string string) !! "LOGGLY_TAGS"
               = Some "prod web") by (vm_compute; reflexivity).
  assert (H2 : "prod web" ≠ "") by discriminate.
  assert (H3 : split_on_blanks "prod web" = Ok ["prod"; "web"])
    by (vm_compute; reflexivity).
  split; [exact H1|]. split; [exact H3|].
  exact (environment_tags_are_split split_on_blanks (Some "acme") (Some "XYZ") None false
           "prod web" ["prod"; "web"] _ fresh_world H1 H2 H3).
Defined.

Lemma malformed_environment_tags_witness :
  split_rejecting_quotes "prod 'web" = Raise ValueError
  /\ main split_rejecting_quotes
          {| cli_account := Some "acme"; cli_token := Some "XYZ"; cli_tags := None;
             cli_hostname := None; cli_remove := false |}
          {["LOGGLY_TAGS" := "prod 'web"]} fresh_world
     = (Raise ValueError, fresh_world).
Proof.
  assert (H1 : "acme" ≠ "") by discriminate.
  assert (H2 : "XYZ" ≠ "") by discriminate.
  assert (H3 : ({["LOGGLY_TAGS" := "prod 'web"]} : gmap string string) !! "LOGGLY_TAGS"
               = Some "prod 'web") by (vm_compute; reflexivity).
  assert (H4 : "prod 'web" ≠ "") by discriminate.
  assert (H5 : split_rejecting_quotes "prod 'web" = Raise ValueError)
    by (vm_compute; reflexivity).
  split; [exact H5|].
  exact (malformed_environment_tags_abort split_rejecting_quotes "acme" "XYZ" None
           "prod 'web" ValueError _ fresh_world H1 H2 H3 H4 H5).
Defined.


Lemma exit_status_witness :
  (forall s c, split_on_blanks s ≠ Exit c)
  /\ ((main split_on_blanks bare_cli ∅ fresh_world).1 = Ok tt
      \/ (main split_on_blanks bare_cli ∅ fresh_world).1 = Exit 1
      \/ exists e, (main split_on_blanks bare_cli ∅ fresh_world).1 = Raise e).
Proof.
  assert (H1 : forall s c, split_on_blanks s ≠ Exit c) by (intros s c; discriminate).
  split; [exact H1|].
  exact (exit_status_is_zero_or_one split_on_blanks bare_cli ∅ fresh_world H1).
Defined.

(** ** Two runs whose renderings agree *)

(** X18. What [configure] does to the files depends on its configuration
    through the rendered text only: after a run with one configuration,
    a run with a configuration that renders to the same text finds the
    target up to date, leaves the files as they are and only restarts
    the service. *)
Theorem equal_renderings_change_nothing
    (c1 c2 : Configuration) (w : world) :
  get_loggly_conf c1 = get_loggly_conf c2 ->
  fs (configure c2 (configure c1 w).2).2 = fs (configure c1 w).2
  /\ trace (configure c2 (configure c1 w).2).2
     = (trace (configure c1 w).2
        ++ EPrint msg_initiating :: up_to_date_events
        ++ closing_events (tail (spawns w)) msg_configured)%list.
Proof.
  intros Hsame. destruct (get_loggly_conf_total c1) as [new H1].
  assert (H2 : get_loggly_conf c2 = Ok new) by congruence.
  destruct w as [f t s].
  rewrite (configure_run_all c1 new f t s H1). cbn [snd].
  rewrite (configure_run_all c2 new _ _ _ H2). cbn [snd fs trace spawns].
  unfold files_after at 1. unfold writer_events at 2.
  rewrite files_after_target, String.eqb_refl. split; reflexivity.
Qed.

Lemma equal_renderings_witness :
  get_loggly_conf example_config
  = get_loggly_conf {| account := Some "acme"; token := Some "XYZ";
                       tags := Some ["prod"]; hostname := Some "" |}
  /\ fs (configure {| account := Some "acme"; token := Some "XYZ";
                      tags := Some ["prod"]; hostname := Some "" |}
                   (configure example_config stale_world).2).2
     = fs (configure example_config stale_world).2.
Proof.
  assert (H1 : get_loggly_conf example_config
               = get_loggly_conf {| account := Some "acme"; token := Some "XYZ";
                                    tags := Some ["prod"]; hostname := Some "" |})
    by (vm_compute; reflexivity).
  split; [exact H1|].
  exact (proj1 (equal_renderings_change_nothing example_config _ stale_world H1)).
Defined.

(** ** The environment as fallback *)

Section MainFallback.

Variable shlex_split : string -> outcome (list string).

(** X19. Without [--account], [--token] and [--hostname], the variables
    LOGGLY_ACCOUNT, LOGGLY_TOKEN and LOGGLY_HOSTNAME give the values: the
    run is the one with these values on the command line. *)
Theorem environment_is_the_fallback
    (ts : option (list string)) (r : bool) (va vt vh : string)
    (environ : gmap string string) (w : world) :
  environ !! "LOGGLY_ACCOUNT" = Some va ->
  environ !! "LOGGLY_TOKEN" = Some vt ->
  environ !! "LOGGLY_HOSTNAME" = Some vh ->
  main shlex_split
       {| cli_account := None; cli_token := None; cli_tags := ts;
          cli_hostname := None; cli_remove := r |}
       environ w
  = main shlex_split
         {| cli_account := Some va; cli_token := Some vt; cli_tags := ts;
            cli_hostname := Some vh; cli_remove := r |}
         environ w.
Proof.
  intros Ha Ht Hh. unfold main, parse_args.
  cbn [ns_remove ns_account ns_token ns_tags ns_hostname
       cli_remove cli_account cli_token cli_tags cli_hostname with_default].
  rewrite Ha, Ht, Hh. reflexivity.
Qed.

End MainFallback.

Lemma environment_fallback_witness :
  main split_on_blanks
       {| cli_account := None; cli_token := None; cli_tags := Some ["prod"];
          cli_hostname := None; cli_remove := false |}
       (<["LOGGLY_ACCOUNT" := "acme"]>
          (<["LOGGLY_TOKEN" := "XYZ"]> {["LOGGLY_HOSTNAME" := "web-1"]}))
       fresh_world
  = main split_on_blanks
         {| cli_account := Some "acme"; cli_token := Some "XYZ";
            cli_tags := Some ["prod"];
            cli_hostname := Some "web-1"; cli_remove := false |}
         (<["LOGGLY_ACCOUNT" := "acme"]>
            (<["LOGGLY_TOKEN" := "XYZ"]> {["LOGGLY_HOSTNAME" := "web-1"]}))
         fresh_world.
Proof.
  apply (environment_is_the_fallback split_on_blanks); vm_compute; reflexivity.
Defined.
